(** * The book reader of [script.js]: navigation state, deep links, search

    A shallow embedding of [script.js].  The module-level variables
    ([booksIndex], [bookCache], [currentBookId], [currentChapter]) and
    the parts of the page the handlers write to (title, back button,
    [main], the books grid, the URL fragment, alerts, network requests)
    form one record that every handler takes and returns.  An [async]
    function that reaches its [await] returns the state at that point
    together with what it needs to resume.

    Strings are sequences of bytes (the UTF-8 form of the JavaScript
    string); ids and chapter numbers are the integers of the JSON data,
    in the range where a JavaScript number is exact and printed in plain
    decimal. *)

From Stdlib Require Import ZArith NArith Ascii String List Bool Lia.
From Stdlib Require Import DecimalString DecimalZ DecimalN DecimalPos.
From stdpp Require Import base option list strings gmap fin_maps.

Local Open Scope string_scope.
Local Open Scope Z_scope.

(** ** The platform functions the script calls *)

Module Js.

(** A number as the script can hold one: an integer or [NaN]. *)
Inductive num : Type :=
  | NaN
  | Int (z : Z).

(** The values that flow into [openBook] and [Number]. *)
Inductive value : Type :=
  | VUndef
  | VNull
  | VNum (n : num)
  | VStr (s : string).

Inductive error : Type :=
  | URIError
  | Error (message : string).

Definition num_eq_dec (a b : num) : {a = b} + {a <> b}.
Proof. decide equality; apply Z.eq_dec. Defined.

(** [a === b] on numbers: [NaN] equals nothing, itself included. *)
Definition strict_eq (a b : num) : bool :=
  match a, b with
  | Int x, Int y => Z.eqb x y
  | _, _ => false
  end.

(** [if (n)] on a number: [0] and [NaN] are falsy. *)
Definition truthy_num (n : num) : bool :=
  match n with
  | NaN => false
  | Int z => negb (Z.eqb z 0)
  end.

(** [if (v)] on a value. *)
Definition truthy (v : value) : bool :=
  match v with
  | VUndef | VNull => false
  | VNum n => truthy_num n
  | VStr s => negb (String.eqb s "")
  end.

(** Decimal rendering of an integer, as a template literal and a
    property key spell it. *)
Definition Z_toString (z : Z) : string :=
  NilEmpty.string_of_int (Z.to_int z).

Definition toString (n : num) : string :=
  match n with
  | NaN => "NaN"
  | Int z => Z_toString z
  end.

Definition code (c : ascii) : N := N_of_ascii c.

(** White space and line terminators of one byte. *)
Definition is_ws1 (a : N) : bool :=
  ((9 <=? a) && (a <=? 13) || (a =? 32))%N.

(** U+00A0. *)
Definition is_ws2 (a b : N) : bool :=
  ((a =? 194) && (b =? 160))%N.

(** U+1680, U+2000..U+200A, U+2028, U+2029, U+202F, U+205F, U+3000,
    U+FEFF. *)
Definition is_ws3 (a b c : N) : bool :=
  ((a =? 225) && (b =? 154) && (c =? 128)
   || (a =? 226) && (b =? 128)
      && ((128 <=? c) && (c <=? 138) || (c =? 168) || (c =? 169) || (c =? 175))
   || (a =? 226) && (b =? 129) && (c =? 159)
   || (a =? 227) && (b =? 128) && (c =? 128)
   || (a =? 239) && (b =? 187) && (c =? 191))%N.

Fixpoint trimStart (s : string) : string :=
  match s with
  | EmptyString => EmptyString
  | String a r1 =>
      if is_ws1 (code a) then trimStart r1
      else
        match r1 with
        | String b r2 =>
            if is_ws2 (code a) (code b) then trimStart r2
            else
              match r2 with
              | String c r3 =>
                  if is_ws3 (code a) (code b) (code c) then trimStart r3
                  else s
              | EmptyString => s
              end
        | EmptyString => s
        end
  end.

Definition is_empty (s : string) : bool :=
  match s with
  | EmptyString => true
  | String _ _ => false
  end.

(** The string is cut where what remains is white space only. *)
Fixpoint trimEnd (s : string) : string :=
  match s with
  | EmptyString => EmptyString
  | String a r =>
      if is_empty (trimStart s) then EmptyString else String a (trimEnd r)
  end.

Definition trim (s : string) : string := trimEnd (trimStart s).

(** [s.includes(q)] *)
Fixpoint includes (s q : string) : bool :=
  String.prefix q s
  || match s with
     | EmptyString => false
     | String _ s' => includes s' q
     end.

(** [s.split(sep)] for a separator of one character: never empty. *)
Fixpoint split (sep : ascii) (s : string) : list string :=
  match s with
  | EmptyString => [EmptyString]
  | String c s' =>
      if Ascii.eqb c sep then EmptyString :: split sep s'
      else
        match split sep s' with
        | [] => [String c EmptyString]
        | h :: t => String c h :: t
        end
  end.

(** [parts.join(sep)] *)
Fixpoint join (sep : string) (parts : list string) : string :=
  match parts with
  | [] => EmptyString
  | [p] => p
  | p :: rest => p +:+ sep +:+ join sep rest
  end.

(** Digits after an optional sign: at least one, all decimal. *)
Definition digits (s : string) : option Z :=
  match s with
  | EmptyString => None
  | String _ _ => Z.of_uint <$> NilEmpty.uint_of_string s
  end.

Definition num_of_option (o : option Z) : num :=
  match o with
  | Some z => Int z
  | None => NaN
  end.

(** [Number(s)] on a string: white space is trimmed, the empty string
    is [0], a signed run of decimal digits is that integer.  Every
    other string is [NaN] here; the literals with a fraction, an
    exponent, a radix prefix or [Infinity] are not decoded, and nothing
    below is stated about them. *)
Definition StringToNumber (s : string) : num :=
  match trim s with
  | EmptyString => Int 0
  | String c r =>
      if Ascii.eqb c "-" then num_of_option (Z.opp <$> digits r)
      else if Ascii.eqb c "+" then num_of_option (digits r)
      else num_of_option (digits (String c r))
  end.

(** [Number(v)] *)
Definition Number (v : value) : num :=
  match v with
  | VUndef => NaN
  | VNull => Int 0
  | VNum n => n
  | VStr s => StringToNumber s
  end.

Definition hexval (c : ascii) : option N :=
  let n := code c in
  (if (48 <=? n) && (n <=? 57) then Some (n - 48)
   else if (65 <=? n) && (n <=? 70) then Some (n - 55)
   else if (97 <=? n) && (n <=? 102) then Some (n - 87)
   else None)%N.

(** The input of [decodeURIComponent] cut into plain characters and
    escapes [%XY]; a [%] without two hexadecimal digits is an error. *)
Inductive token : Type :=
  | Lit (c : ascii)
  | Esc (b : N).

Fixpoint tokens (s : string) : option (list token) :=
  match s with
  | EmptyString => Some []
  | String c r =>
      if Ascii.eqb c "%" then
        match r with
        | String h (String l r') =>
            match hexval h, hexval l with
            | Some x, Some y => cons (Esc (16 * x + y)%N) <$> tokens r'
            | _, _ => None
            end
        | _ => None
        end
      else cons (Lit c) <$> tokens r
  end.

Definition cont (b : N) : bool := ((128 <=? b) && (b <=? 191))%N.

(** Well-formed sequences of two, three and four octets. *)
Definition utf8_2 (a b : N) : bool :=
  ((194 <=? a) && (a <=? 223))%N && cont b.

Definition utf8_3 (a b c : N) : bool :=
  ((224 <=? a) && (a <=? 239))%N && cont b && cont c
  && negb ((a =? 224) && (b <? 160))%N
  && negb ((a =? 237) && (160 <=? b))%N.

Definition utf8_4 (a b c d : N) : bool :=
  ((240 <=? a) && (a <=? 244))%N && cont b && cont c && cont d
  && negb ((a =? 240) && (b <? 144))%N
  && negb ((a =? 244) && (144 <=? b))%N.

Definition octet (b : N) : ascii := ascii_of_N b.

(** The escapes must spell well-formed UTF-8: a lead octet announces
    how many escapes follow it. *)
Fixpoint unescape (ts : list token) : option string :=
  match ts with
  | [] => Some EmptyString
  | Lit c :: r => String c <$> unescape r
  | Esc a :: r =>
      if (a <? 128)%N then String (octet a) <$> unescape r
      else if (a <? 192)%N then None
      else if (a <? 224)%N then
        match r with
        | Esc b :: r2 =>
            if utf8_2 a b
            then (fun s => String (octet a) (String (octet b) s)) <$> unescape r2
            else None
        | _ => None
        end
      else if (a <? 240)%N then
        match r with
        | Esc b :: Esc c :: r3 =>
            if utf8_3 a b c
            then (fun s => String (octet a) (String (octet b) (String (octet c) s)))
                   <$> unescape r3
            else None
        | _ => None
        end
      else if (a <? 248)%N then
        match r with
        | Esc b :: Esc c :: Esc d :: r4 =>
            if utf8_4 a b c d
            then (fun s => String (octet a) (String (octet b)
                             (String (octet c) (String (octet d) s))))
                   <$> unescape r4
            else None
        | _ => None
        end
      else None
  end.

(** [decodeURIComponent(v)]: [undefined] is first turned into the
    string ["undefined"]; a malformed escape throws [URIError]. *)
Definition decodeURIComponent (v : option string) : error + string :=
  match v with
  | None => inr "undefined"
  | Some s =>
      match tokens s ≫= unescape with
      | Some r => inr r
      | None => inl URIError
      end
  end.

End Js.

(** ** The data of the reader *)

(** An entry of [books-index.json]. *)
Record Meta : Type := {
  meta_id : Z;
  meta_name : string;
  meta_file : string
}.

Record Chapter : Type := {
  ch_number : Z;
  ch_verses : list string
}.

(** The content of one book file. *)
Record Book : Type := {
  book_id : Z;
  book_name : string;
  book_chapters : list Chapter
}.

(** What a key of [bookCache] holds: a book, or a JSON object of
    another shape, one that has no [chapters].  Of such an object,
    [name] is the text a template literal gives for its [name] (the
    text of [undefined] when it has none), and [complaint p] is the
    message of the [TypeError] the engine throws when the script reads
    the property [p] of its missing [chapters]. *)
Inductive File : Type :=
  | Shaped (book : Book)
  | Misshapen (name : string) (complaint : string -> string).

(** [main.className] *)
Inductive page : Type :=
  | BooksPage
  | ChaptersPage
  | VersesPage.

(** What [main] holds. *)
Inductive content : Type :=
  | Untouched
  | ChaptersView (book : Book)
  | ChapterNotFound
  | VersesView (ch : Chapter).

Record State : Type := {
  booksIndex : list Meta;
  bookCache : gmap string File;
  currentBookId : option Js.num;
  currentChapter : option Js.num;
  title : string;
  backBtn_hidden : bool;
  main_className : page;
  main_content : content;
  booksGrid : list Meta;
  location_hash : string;
  history : list string;
  alerts : list string;
  fetches : list string
}.

Definition set_bookCache (c : gmap string File) (st : State) : State :=
  {| booksIndex := booksIndex st; bookCache := c;
     currentBookId := currentBookId st; currentChapter := currentChapter st;
     title := title st; backBtn_hidden := backBtn_hidden st;
     main_className := main_className st; main_content := main_content st;
     booksGrid := booksGrid st; location_hash := location_hash st;
     history := history st; alerts := alerts st; fetches := fetches st |}.

Definition set_currentBookId (b : option Js.num) (st : State) : State :=
  {| booksIndex := booksIndex st; bookCache := bookCache st;
     currentBookId := b; currentChapter := currentChapter st;
     title := title st; backBtn_hidden := backBtn_hidden st;
     main_className := main_className st; main_content := main_content st;
     booksGrid := booksGrid st; location_hash := location_hash st;
     history := history st; alerts := alerts st; fetches := fetches st |}.

Definition set_currentChapter (c : option Js.num) (st : State) : State :=
  {| booksIndex := booksIndex st; bookCache := bookCache st;
     currentBookId := currentBookId st; currentChapter := c;
     title := title st; backBtn_hidden := backBtn_hidden st;
     main_className := main_className st; main_content := main_content st;
     booksGrid := booksGrid st; location_hash := location_hash st;
     history := history st; alerts := alerts st; fetches := fetches st |}.

Definition setTitle (txt : string) (st : State) : State :=
  {| booksIndex := booksIndex st; bookCache := bookCache st;
     currentBookId := currentBookId st; currentChapter := currentChapter st;
     title := txt; backBtn_hidden := backBtn_hidden st;
     main_className := main_className st; main_content := main_content st;
     booksGrid := booksGrid st; location_hash := location_hash st;
     history := history st; alerts := alerts st; fetches := fetches st |}.

Definition set_backBtn_hidden (h : bool) (st : State) : State :=
  {| booksIndex := booksIndex st; bookCache := bookCache st;
     currentBookId := currentBookId st; currentChapter := currentChapter st;
     title := title st; backBtn_hidden := h;
     main_className := main_className st; main_content := main_content st;
     booksGrid := booksGrid st; location_hash := location_hash st;
     history := history st; alerts := alerts st; fetches := fetches st |}.

Definition set_main_className (p : page) (st : State) : State :=
  {| booksIndex := booksIndex st; bookCache := bookCache st;
     currentBookId := currentBookId st; currentChapter := currentChapter st;
     title := title st; backBtn_hidden := backBtn_hidden st;
     main_className := p; main_content := main_content st;
     booksGrid := booksGrid st; location_hash := location_hash st;
     history := history st; alerts := alerts st; fetches := fetches st |}.

Definition set_main_content (c : content) (st : State) : State :=
  {| booksIndex := booksIndex st; bookCache := bookCache st;
     currentBookId := currentBookId st; currentChapter := currentChapter st;
     title := title st; backBtn_hidden := backBtn_hidden st;
     main_className := main_className st; main_content := c;
     booksGrid := booksGrid st; location_hash := location_hash st;
     history := history st; alerts := alerts st; fetches := fetches st |}.

(** [renderBooksGrid(list)] *)
Definition renderBooksGrid (l : list Meta) (st : State) : State :=
  {| booksIndex := booksIndex st; bookCache := bookCache st;
     currentBookId := currentBookId st; currentChapter := currentChapter st;
     title := title st; backBtn_hidden := backBtn_hidden st;
     main_className := main_className st; main_content := main_content st;
     booksGrid := l; location_hash := location_hash st;
     history := history st; alerts := alerts st; fetches := fetches st |}.

(** The fragment the document has after [history.replaceState(null, "",
    url)], for the two shapes [updateHash] passes: a reference that
    starts with [#] replaces the fragment; the reference of one space
    is stripped to the empty reference, which is the document without
    fragment. *)
Definition fragment_of (url : string) : string :=
  match url with
  | EmptyString => EmptyString
  | String c r =>
      if Ascii.eqb c "#" && negb (Js.is_empty r) then url else EmptyString
  end.

Definition replaceState (url : string) (st : State) : State :=
  {| booksIndex := booksIndex st; bookCache := bookCache st;
     currentBookId := currentBookId st; currentChapter := currentChapter st;
     title := title st; backBtn_hidden := backBtn_hidden st;
     main_className := main_className st; main_content := main_content st;
     booksGrid := booksGrid st; location_hash := fragment_of url;
     history := history st ++ [url]; alerts := alerts st;
     fetches := fetches st |}.

(** [alert(msg)] *)
Definition alert (msg : string) (st : State) : State :=
  {| booksIndex := booksIndex st; bookCache := bookCache st;
     currentBookId := currentBookId st; currentChapter := currentChapter st;
     title := title st; backBtn_hidden := backBtn_hidden st;
     main_className := main_className st; main_content := main_content st;
     booksGrid := booksGrid st; location_hash := location_hash st;
     history := history st; alerts := alerts st ++ [msg];
     fetches := fetches st |}.

(** [fetch(path)] is issued. *)
Definition fetch (path : string) (st : State) : State :=
  {| booksIndex := booksIndex st; bookCache := bookCache st;
     currentBookId := currentBookId st; currentChapter := currentChapter st;
     title := title st; backBtn_hidden := backBtn_hidden st;
     main_className := main_className st; main_content := main_content st;
     booksGrid := booksGrid st; location_hash := location_hash st;
     history := history st; alerts := alerts st;
     fetches := fetches st ++ [path] |}.

(** The property name under which [bookCache[k]] is read and written. *)
Definition property_key (k : option Js.num) : string :=
  match k with
  | None => "null"
  | Some n => Js.toString n
  end.

(** ** Deep links *)

(** [result[k] = d]: the accessor [__proto__] ignores a string. *)
Definition assign (k d : string) (result : gmap string string)
  : gmap string string :=
  if String.eqb k "__proto__" then result else <[k := d]> result.

(** The body of [pairs.forEach(([k,v]) => ...)] for one pair. *)
Definition parse_pair (p : list string) (result : gmap string string)
  : Js.error + gmap string string :=
  let k := hd EmptyString p in
  let v := nth_error p 1 in
  if Js.is_empty k then inr result
  else
    match Js.decodeURIComponent v with
    | inl e => inl e
    | inr d => inr (assign k d result)
    end.

Fixpoint forEach_pairs (pairs : list (list string))
  (result : gmap string string) : Js.error + gmap string string :=
  match pairs with
  | [] => inr result
  | p :: rest =>
      match parse_pair p result with
      | inl e => inl e
      | inr result' => forEach_pairs rest result'
      end
  end.

(** [location.hash.replace(/^#/, "")] *)
Definition strip_hash (h : string) : string :=
  match h with
  | String c r => if Ascii.eqb c "#" then r else h
  | EmptyString => EmptyString
  end.

Definition parseHash (location_hash : string)
  : Js.error + gmap string string :=
  let hash := strip_hash location_hash in
  if Js.is_empty hash then inr ∅
  else forEach_pairs (map (Js.split "=") (Js.split "&" hash)) ∅.

(** The argument of [updateHash]; an absent key is [undefined]. *)
Record HashParams : Type := {
  params_book : option Js.num;
  params_chapter : option Js.num
}.

Definition truthy_param (p : option Js.num) : bool :=
  match p with
  | None => false
  | Some n => Js.truthy_num n
  end.

(** [`${p}`] *)
Definition template (p : option Js.num) : string :=
  match p with
  | None => "undefined"
  | Some n => Js.toString n
  end.

Definition updateHash_parts (params : HashParams) : list string :=
  (if truthy_param (params_book params)
   then ["book=" +:+ template (params_book params)] else [])
  ++ (if truthy_param (params_chapter params)
      then ["chapter=" +:+ template (params_chapter params)] else []).

(** The URL handed to [history.replaceState]. *)
Definition updateHash_url (params : HashParams) : string :=
  let h := Js.join "&" (updateHash_parts params) in
  if Js.is_empty h then " " else "#" +:+ h.

Definition updateHash (params : HashParams) (st : State) : State :=
  replaceState (updateHash_url params) st.

(** ** Views *)

Definition showBooks (st : State) : State :=
  set_main_className BooksPage
    (set_backBtn_hidden true
       (setTitle "Books"
          (set_currentChapter None (set_currentBookId None st)))).

Definition renderChaptersView (book : Book) (st : State) : State :=
  set_main_content (ChaptersView book)
    (setTitle (book_name book) (set_main_className ChaptersPage st)).

Definition find_chapter (n : Js.num) (book : Book) : option Chapter :=
  List.find (fun c => Js.strict_eq (Js.Int (ch_number c)) n)
    (book_chapters book).

(** [openChapter(bookId, chapterNumber)], to its end or to the line
    where it throws: of an object without [chapters] it reads
    [chapters.find] once [currentChapter], the title and the class of
    [main] are set. *)
Definition openChapter (bookId chapterNumber : Js.num) (st : State) : State :=
  match bookCache st !! Js.toString bookId with
  | None => st
  | Some (Misshapen name _) =>
      set_main_className VersesPage
        (setTitle (name +:+ " â€” " +:+ Js.toString chapterNumber)
           (set_currentChapter (Some chapterNumber) st))
  | Some (Shaped book) =>
      let st1 :=
        set_main_className VersesPage
          (setTitle (book_name book +:+ " â€” " +:+ Js.toString chapterNumber)
             (set_currentChapter (Some chapterNumber) st)) in
      match find_chapter chapterNumber book with
      | None => set_main_content ChapterNotFound st1
      | Some ch =>
          updateHash {| params_book := Some bookId;
                        params_chapter := Some chapterNumber |}
            (set_main_content (VersesView ch) st1)
      end
  end.

(** The message of what [openChapter(bookId, _)] throws, if it throws. *)
Definition openChapter_thrown (bookId : Js.num) (st : State)
  : option string :=
  match bookCache st !! Js.toString bookId with
  | Some (Misshapen _ complaint) => Some (complaint "find")
  | _ => None
  end.

(** ** Opening a book *)

Record Options : Type := {
  opt_chapter : Js.value;
  opt_showChaptersOnly : bool
}.

(** [options = {}] *)
Definition no_options : Options :=
  {| opt_chapter := Js.VUndef; opt_showChaptersOnly := false |}.

(** What [await fetchJson(path)] resumes with: a throw of [fetchJson]
    (no answer, a bad status, a body that is not JSON), a book, or a
    JSON object of another shape. *)
Inductive response : Type :=
  | Failed (message : string)
  | Json (book : Book)
  | JsonOther (name : string) (complaint : string -> string).

(** A call suspended at [await fetchJson(meta.file)]. *)
Record Pending : Type := {
  pending_path : string;
  pending_options : Options
}.

Inductive Outcome : Type :=
  | Done (st : State)
  | Await (st : State) (k : Pending).

(** [book.chapters[0]?.number ?? 1] *)
Definition first_number (book : Book) : Js.num :=
  match book_chapters book with
  | [] => Js.Int 1
  | c :: _ => Js.Int (ch_number c)
  end.

(** The [catch] block. *)
Definition openBook_catch (message : string) (st : State) : State :=
  showBooks (alert ("Failed to open book: " +:+ message) (setTitle "Books" st)).

(** [openChapter(bookId, chapterNumber)] inside the [try] block: what
    it throws is caught. *)
Definition openChapter_caught (bookId chapterNumber : Js.num) (st : State)
  : State :=
  match openChapter_thrown bookId st with
  | Some message => openBook_catch message (openChapter bookId chapterNumber st)
  | None => openChapter bookId chapterNumber st
  end.

(** The [try] block from [renderChaptersView(book)] on, for a book. *)
Definition openBook_show (book : Book) (options : Options) (st : State)
  : State :=
  let st1 := renderChaptersView book st in
  if Js.truthy (opt_chapter options) then
    openChapter_caught (Js.Int (book_id book))
      (Js.Number (opt_chapter options)) st1
  else if opt_showChaptersOnly options then st1
  else openChapter_caught (Js.Int (book_id book)) (first_number book) st1.

Definition find_meta (n : Js.num) (index : list Meta) : option Meta :=
  List.find (fun b => Js.strict_eq (Js.Int (meta_id b)) n) index.

(** [openBook(bookId, options)] up to its [await], or to its end when
    the key is cached or has no entry in the index.  An object without
    [chapters] is a cache hit like a book; [renderChaptersView] then
    throws on [chapters.length], before it touches the content of
    [main]. *)
Definition openBook (bookId : Js.value) (options : Options) (st : State)
  : Outcome :=
  let st1 :=
    set_backBtn_hidden false
      (setTitle "Loading..."
         (set_currentBookId (Some (Js.Number bookId)) st)) in
  match bookCache st1 !! property_key (currentBookId st1) with
  | Some (Shaped book) => Done (openBook_show book options st1)
  | Some (Misshapen _ complaint) =>
      Done (openBook_catch (complaint "length") st1)
  | None =>
      match find_meta (Js.Number bookId) (booksIndex st1) with
      | None => Done (openBook_catch "Book meta not found" st1)
      | Some meta =>
          Await (fetch (meta_file meta) st1)
            {| pending_path := meta_file meta; pending_options := options |}
      end
  end.

(** [openBook] from its [await] on, in the state the page has when the
    request settles.  Whatever JSON arrives is stored under
    [currentBookId] before it is looked at. *)
Definition openBook_resume (k : Pending) (r : response) (st : State)
  : State :=
  match r with
  | Failed message => openBook_catch message st
  | Json book =>
      openBook_show book (pending_options k)
        (set_bookCache
           (<[property_key (currentBookId st) := Shaped book]> (bookCache st))
           st)
  | JsonOther name complaint =>
      openBook_catch (complaint "length")
        (set_bookCache
           (<[property_key (currentBookId st) := Misshapen name complaint]>
              (bookCache st))
           st)
  end.

(** A call whose request settles before any other handler runs. *)
Definition settle (o : Outcome) (r : response) : State :=
  match o with
  | Done st => st
  | Await st k => openBook_resume k r st
  end.

Definition state_of (o : Outcome) : State :=
  match o with
  | Done st => st
  | Await st _ => st
  end.

Definition value_of (k : option Js.num) : Js.value :=
  match k with
  | None => Js.VNull
  | Some n => Js.VNum n
  end.

(** The click handler of [backBtn]. *)
Definition backBtn_click (st : State) : Outcome :=
  match currentChapter st with
  | Some _ =>
      openBook (value_of (currentBookId st))
        {| opt_chapter := Js.VUndef; opt_showChaptersOnly := true |} st
  | None => Done (showBooks st)
  end.

(** [h.k] *)
Definition read (h : gmap string string) (k : string) : Js.value :=
  match h !! k with
  | Some s => Js.VStr s
  | None => Js.VUndef
  end.

(** [handleDeepLink()]: a throw of [parseHash] rejects it. *)
Definition handleDeepLink (st : State) : Js.error + Outcome :=
  match parseHash (location_hash st) with
  | inl e => inl e
  | inr h =>
      if Js.truthy (read h "book") then
        inr (openBook (read h "book")
               {| opt_chapter := read h "chapter";
                  opt_showChaptersOnly := false |} st)
      else inr (Done st)
  end.

(** ** Search *)

(** The books of the cache. *)
Definition books (cache : gmap string File) : gmap string Book :=
  omap (fun f => match f with
                 | Shaped book => Some book
                 | Misshapen _ _ => None
                 end) cache.

Section Search.

(** [String.prototype.toLowerCase], whose table is the platform's. *)
Variable toLowerCase : string -> string.

Definition verse_hit (q : string) (book : Book) : bool :=
  existsb
    (fun ch => existsb (fun v => Js.includes (toLowerCase v) q) (ch_verses ch))
    (book_chapters book).

(** The callback of [booksIndex.filter]. *)
Definition hit (cache : gmap string Book) (q : string) (b : Meta) : bool :=
  if Js.includes (toLowerCase (meta_name b)) q then true
  else
    match cache !! Js.Z_toString (meta_id b) with
    | Some cached => verse_hit q cached
    | None => false
    end.

(** The list the input handler hands to [renderBooksGrid]. *)
Definition search (index : list Meta) (cache : gmap string Book)
  (input : string) : list Meta :=
  let q := toLowerCase (Js.trim input) in
  if Js.is_empty q then index else List.filter (hit cache q) index.

(** The callback throws at [b]: the name does not match and the key
    holds an object without [chapters], of which [chapters.some] is
    read. *)
Definition hit_throws (cache : gmap string File) (q : string) (b : Meta)
  : bool :=
  if Js.includes (toLowerCase (meta_name b)) q then false
  else
    match cache !! Js.Z_toString (meta_id b) with
    | Some (Misshapen _ _) => true
    | _ => false
    end.

(** The [input] handler of [searchInput].  When the callback throws,
    the handler ends there and the grid stays as it is. *)
Definition searchInput_input (input : string) (st : State) : State :=
  let q := toLowerCase (Js.trim input) in
  if negb (Js.is_empty q) && existsb (hit_throws (bookCache st) q) (booksIndex st)
  then st
  else renderBooksGrid (search (booksIndex st) (books (bookCache st)) input) st.

End Search.

(** Lower case of the letters A to Z, every other byte kept: what
    [toLowerCase] does on ASCII text. *)
Fixpoint ascii_toLowerCase (s : string) : string :=
  match s with
  | EmptyString => EmptyString
  | String c r =>
      let n := Js.code c in
      String (if ((65 <=? n) && (n <=? 90))%N then ascii_of_N (n + 32) else c)
        (ascii_toLowerCase r)
  end.

(** ** The states of the navigation, as the specification names them *)

Inductive NavigationState : Type :=
  | Library
  | ChapterList (bookId : Z)
  | VerseList (bookId chapterNumber : Z).

(** The parameters that spell a navigation state in the fragment. *)
Definition params_of (s : NavigationState) : HashParams :=
  match s with
  | Library => {| params_book := None; params_chapter := None |}
  | ChapterList b =>
      {| params_book := Some (Js.Int b); params_chapter := None |}
  | VerseList b n =>
      {| params_book := Some (Js.Int b); params_chapter := Some (Js.Int n) |}
  end.

(** The fragment of the document once [updateHash] wrote the state. *)
Definition fragment_of_state (s : NavigationState) : string :=
  fragment_of (updateHash_url (params_of s)).

(** The navigation state a parsed fragment stands for, read as
    [handleDeepLink], [openBook] and [openChapter] read it: [book]
    and [chapter] through [Number], a falsy [book] as no link. *)
Definition state_of_link (h : gmap string string) : option NavigationState :=
  if Js.truthy (read h "book") then
    match Js.Number (read h "book") with
    | Js.NaN => None
    | Js.Int b =>
        if Js.truthy (read h "chapter") then
          match Js.Number (read h "chapter") with
          | Js.NaN => None
          | Js.Int n => Some (VerseList b n)
          end
        else Some (ChapterList b)
    end
  else Some Library.

(** ** A library of one book *)

Definition genesis_meta : Meta :=
  {| meta_id := 1; meta_name := "Genesis"; meta_file := "g.json" |}.

Definition genesis_ch1 : Chapter :=
  {| ch_number := 1; ch_verses := ["In the beginning"] |}.

Definition genesis : Book :=
  {| book_id := 1; book_name := "Genesis"; book_chapters := [genesis_ch1] |}.

(** The page once [loadInitial] has run on an index and no fragment. *)
Definition start (index : list Meta) : State :=
  {| booksIndex := index; bookCache := ∅;
     currentBookId := None; currentChapter := None;
     title := "Books"; backBtn_hidden := true;
     main_className := BooksPage; main_content := Untouched;
     booksGrid := index; location_hash := EmptyString;
     history := []; alerts := []; fetches := [] |}.

(** One book whose first chapter is not its smallest. *)
Definition psalms_meta : Meta :=
  {| meta_id := 19; meta_name := "Psalms"; meta_file := "ps.json" |}.

Definition psalm23 : Chapter :=
  {| ch_number := 23; ch_verses := ["The Lord is my shepherd"] |}.

Definition psalm1 : Chapter :=
  {| ch_number := 1; ch_verses := ["Blessed is the man"] |}.

Definition psalms : Book :=
  {| book_id := 19; book_name := "Psalms";
     book_chapters := [psalm23; psalm1] |}.

(** Genesis opened from the library by a tap, its file fetched. *)
Definition genesis_open : State :=
  settle (openBook (Js.VNum (Js.Int 1)) no_options (start [genesis_meta]))
    (Json genesis).

(** The file [{}], with the wording of V8 for the [TypeError]. *)
Definition empty_object : response :=
  JsonOther "undefined"
    (fun p => "Cannot read properties of undefined (reading '" +:+ p +:+ "')").

(** A page that holds Genesis in its cache and whose fragment links to
    a chapter the book does not have. *)
Definition genesis_linked : State :=
  {| booksIndex := [genesis_meta]; bookCache := {[ "1" := Shaped genesis ]};
     currentBookId := None; currentChapter := None;
     title := "Books"; backBtn_hidden := true;
     main_className := BooksPage; main_content := Untouched;
     booksGrid := [genesis_meta]; location_hash := "#book=1&chapter=99";
     history := []; alerts := []; fetches := ["g.json"] |}.

(** [loadIndex] after the index arrived, then the [showBooks] of
    [loadInitial]: the deep link is started and not awaited, so a
    request for its book is still open when [showBooks] runs. *)
Definition loadInitial (index : list Meta) (hash : string)
  : Js.error + Outcome :=
  let st :=
    {| booksIndex := index; bookCache := ∅;
       currentBookId := None; currentChapter := None;
       title := EmptyString; backBtn_hidden := true;
       main_className := BooksPage; main_content := Untouched;
       booksGrid := index; location_hash := hash;
       history := []; alerts := []; fetches := [] |} in
  match handleDeepLink st with
  | inl e => inl e
  | inr (Done st') => inr (Done (showBooks st'))
  | inr (Await st' k) => inr (Await (showBooks st') k)
  end.

(** ** Vocabulary of the statements *)

(** The character does not occur in the string. *)
Fixpoint no_char (c : ascii) (s : string) : bool :=
  match s with
  | EmptyString => true
  | String a r => negb (Ascii.eqb a c) && no_char c r
  end.

(** A decimal digit or the minus sign. *)
Definition plain_char (a : ascii) : bool :=
  let n := Js.code a in
  ((48 <=? n) && (n <=? 57) || (n =? 45))%N.

Fixpoint plain (s : string) : bool :=
  match s with
  | EmptyString => true
  | String a r => plain_char a && plain r
  end.

(** The pairs [parseHash] iterates over. *)
Definition pairs_of (location_hash : string) : list (list string) :=
  map (Js.split "=") (Js.split "&" (strip_hash location_hash)).

(** Neither id of the state is [0]. *)
Definition nonzero (s : NavigationState) : Prop :=
  match s with
  | Library => True
  | ChapterList b => b <> 0
  | VerseList b n => b <> 0 /\ n <> 0
  end.

(** The page is the library. *)
Definition at_library (st : State) : Prop :=
  main_className st = BooksPage
  /\ currentBookId st = None
  /\ currentChapter st = None.

(** The page shows the verses of chapter [c] of book [id]. *)
Definition at_verses (id : Z) (c : Chapter) (st : State) : Prop :=
  main_className st = VersesPage
  /\ main_content st = VersesView c
  /\ currentBookId st = Some (Js.Int id)
  /\ currentChapter st = Some (Js.Int (ch_number c)).


Section Matching.

Variable toLowerCase : string -> string.



End Matching.

(** The white space and line terminator characters, by the octets of
    their UTF-8 form: U+0009..U+000D, U+0020, U+00A0, U+1680,
    U+2000..U+200A, U+2028, U+2029, U+202F, U+205F, U+3000, U+FEFF. *)
Definition white_space : list (list N) :=
  [ [9]; [10]; [11]; [12]; [13]; [32]; [194; 160]; [225; 154; 128];
    [226; 128; 128]; [226; 128; 129]; [226; 128; 130]; [226; 128; 131];
    [226; 128; 132]; [226; 128; 133]; [226; 128; 134]; [226; 128; 135];
    [226; 128; 136]; [226; 128; 137]; [226; 128; 138];
    [226; 128; 168]; [226; 128; 169]; [226; 128; 175]; [226; 129; 159];
    [227; 128; 128]; [239; 187; 191] ]%N.

Fixpoint of_octets (l : list N) (rest : string) : string :=
  match l with
  | [] => rest
  | b :: l' => String (ascii_of_N b) (of_octets l' rest)
  end.

(** The string is a run of white space characters. *)
Inductive whitespace_only : string -> Prop :=
  | ws_nil : whitespace_only EmptyString
  | ws_cons (w : list N) (rest : string) :
      In w white_space ->
      whitespace_only rest ->
      whitespace_only (of_octets w rest).
(** ** Verse text, and the taps *)

(** The replacement [escapeHtml] makes for one character. *)
Definition escape_char (c : ascii) : string :=
  if Ascii.eqb c "&" then "&amp;"
  else if Ascii.eqb c "<" then "&lt;"
  else if Ascii.eqb c ">" then "&gt;"
  else if Ascii.eqb c "'" then "&#39;"
  else if Ascii.eqb c "034" then "&quot;"
  else String c EmptyString.

(** [escapeHtml(s)] on a string. *)
Fixpoint escapeHtml (s : string) : string :=
  match s with
  | EmptyString => EmptyString
  | String c r => escape_char c +:+ escapeHtml r
  end.

(** The click handler of a book card. *)
Definition card_click (b : Meta) (st : State) : Outcome :=
  openBook (Js.VNum (Js.Int (meta_id b))) no_options st.

(** The click handler of the button [renderChaptersView(book)] makes
    for the chapter [ch]. *)
Definition chapter_btn_click (book : Book) (ch : Chapter) (st : State)
  : State :=
  openChapter (Js.Int (book_id book)) (Js.Int (ch_number ch)) st.

(** [k] clicks on the back button, none of them left waiting. *)
Fixpoint back_times (k : nat) (st : State) : State :=
  match k with
  | O => st
  | S k' => back_times k' (state_of (backBtn_click st))
  end.

(** None of the five characters [escapeHtml] replaces occurs. *)
Definition markup_free (s : string) : bool :=
  no_char "&" s && no_char "<" s && no_char ">" s && no_char "'" s
  && no_char "034" s.

(** Every book of the cache is stored under the key of its own id. *)
Definition cache_ok (cache : gmap string File) : Prop :=
  forall (k : string) (book : Book),
    cache !! k = Some (Shaped book) -> k = Js.Z_toString (book_id book).

(** From [st] to [st'] the URL was left alone, or it was written once
    and the page shows verses. *)
Definition url_only_for_verses (st st' : State) : Prop :=
  (history st' = history st /\ location_hash st' = location_hash st)
  \/ exists (url : string) (c : Chapter),
       history st' = (history st ++ [url])%list
       /\ location_hash st' = fragment_of url
       /\ main_className st' = VersesPage
       /\ main_content st' = VersesView c.

(** When the verses page is shown, [currentChapter] is set. *)
Definition verses_have_chapter (st : State) : Prop :=
  main_className st = VersesPage -> currentChapter st <> None.

(** ** Strings of digits *)

Lemma plain_char_not (c a : ascii) :
  plain_char c = false -> plain_char a = true -> Ascii.eqb a c = false.
Proof.
  intros Hc Ha. destruct (Ascii.eqb_spec a c) as [->|]; [congruence | reflexivity].
Qed.

Lemma plain_no_char (c : ascii) (s : string) :
  plain_char c = false -> plain s = true -> no_char c s = true.
Proof.
  intros Hc. induction s as [|a r IH]; simpl; [reflexivity|].
  intros [Ha Hr]%andb_prop.
  rewrite (plain_char_not c a Hc Ha), (IH Hr). reflexivity.
Qed.

Lemma no_char_app (c : ascii) (s t : string) :
  no_char c (s +:+ t) = no_char c s && no_char c t.
Proof.
  induction s as [|a r IH]; simpl; [reflexivity|].
  rewrite IH. apply andb_assoc.
Qed.

Lemma plain_app (s t : string) : plain (s +:+ t) = plain s && plain t.
Proof.
  induction s as [|a r IH]; simpl; [reflexivity|].
  rewrite IH. apply andb_assoc.
Qed.

Lemma plain_uint (d : Decimal.uint) : plain (NilEmpty.string_of_uint d) = true.
Proof. induction d; simpl; auto. Qed.

Lemma plain_Z_toString (z : Z) : plain (Js.Z_toString z) = true.
Proof.
  unfold Js.Z_toString. destruct (Z.to_int z); simpl; apply plain_uint.
Qed.

Lemma Z_toString_nonempty (z : Z) : Js.Z_toString z <> EmptyString.
Proof.
  unfold Js.Z_toString. destruct z as [|p|p]; simpl; [discriminate| |discriminate].
  pose proof (DecimalPos.Unsigned.to_uint_nonnil p) as Hp.
  destruct (Pos.to_uint p); simpl; congruence.
Qed.

(** ** Splitting *)

Lemma split_no_char (sep : ascii) (s : string) :
  no_char sep s = true -> Js.split sep s = [s].
Proof.
  induction s as [|a r IH]; simpl; [reflexivity|].
  intros [Ha Hr]%andb_prop. apply negb_true_iff in Ha.
  rewrite Ha, (IH Hr). reflexivity.
Qed.

Lemma split_app (sep : ascii) (s t : string) :
  no_char sep s = true ->
  Js.split sep (s +:+ String sep t) = s :: Js.split sep t.
Proof.
  induction s as [|a r IH]; simpl.
  - intros _. rewrite Ascii.eqb_refl. reflexivity.
  - intros [Ha Hr]%andb_prop. apply negb_true_iff in Ha.
    rewrite Ha, (IH Hr). reflexivity.
Qed.

(** ** Escapes *)

Lemma tokens_no_percent (s : string) :
  no_char "%" s = true -> Js.tokens s ≫= Js.unescape = Some s.
Proof.
  induction s as [|a r IH]; simpl; [reflexivity|].
  intros [Ha Hr]%andb_prop. apply negb_true_iff in Ha. rewrite Ha.
  specialize (IH Hr). destruct (Js.tokens r) as [ts|]; simpl in *; [|discriminate].
  rewrite IH. reflexivity.
Qed.

Lemma decodeURIComponent_no_percent (s : string) :
  no_char "%" s = true -> Js.decodeURIComponent (Some s) = inr s.
Proof.
  intros H. unfold Js.decodeURIComponent. rewrite (tokens_no_percent s H).
  reflexivity.
Qed.

(** ** Trimming and [Number] *)

Lemma plain_char_not_ws (a : ascii) :
  plain_char a = true ->
  Js.is_ws1 (Js.code a) = false
  /\ (forall b, Js.is_ws2 (Js.code a) b = false)
  /\ (forall b c, Js.is_ws3 (Js.code a) b c = false).
Proof.
  destruct a as [[] [] [] [] [] [] [] []];
    (discriminate || (intros _; repeat split; reflexivity)).
Qed.

Lemma trimStart_plain (s : string) : plain s = true -> Js.trimStart s = s.
Proof.
  destruct s as [|a r]; [reflexivity|].
  cbn [plain Js.trimStart]. intros [Ha _]%andb_prop.
  destruct (plain_char_not_ws a Ha) as (H1 & H2 & H3).
  rewrite H1. destruct r as [|b r2]; [reflexivity|]. rewrite H2.
  destruct r2 as [|c r3]; [reflexivity|]. rewrite H3. reflexivity.
Qed.

Lemma trimEnd_plain (s : string) : plain s = true -> Js.trimEnd s = s.
Proof.
  induction s as [|a r IH]; [reflexivity|].
  intros H. cbn [Js.trimEnd]. rewrite (trimStart_plain _ H). simpl.
  simpl in H. apply andb_prop in H as [_ Hr]. rewrite (IH Hr). reflexivity.
Qed.

Lemma trim_plain (s : string) : plain s = true -> Js.trim s = s.
Proof.
  intros H. unfold Js.trim. rewrite (trimStart_plain s H). apply trimEnd_plain, H.
Qed.

Lemma digits_uint (d : Decimal.uint) :
  d <> Decimal.Nil ->
  Js.digits (NilEmpty.string_of_uint d) = Some (Z.of_uint d).
Proof.
  intros Hd. unfold Js.digits.
  destruct (NilEmpty.string_of_uint d) eqn:E.
  - destruct d; simpl in E; congruence.
  - rewrite <- E, NilEmpty.usu. reflexivity.
Qed.

Lemma uint_head_not_sign (d : Decimal.uint) (c : ascii) (r : string) :
  NilEmpty.string_of_uint d = String c r ->
  Ascii.eqb c "-" = false /\ Ascii.eqb c "+" = false.
Proof. destruct d; simpl; intros [= <- _]; split; reflexivity. Qed.

Lemma Number_Z_toString (z : Z) : Js.StringToNumber (Js.Z_toString z) = Js.Int z.
Proof.
  unfold Js.StringToNumber. rewrite (trim_plain _ (plain_Z_toString z)).
  pose proof (DecimalZ.of_to z) as Hz. unfold Js.Z_toString.
  destruct z as [|p|p].
  - reflexivity.
  - pose proof (DecimalPos.Unsigned.to_uint_nonnil p) as Hp.
    cbn [Z.to_int NilEmpty.string_of_int] in *.
    destruct (NilEmpty.string_of_uint (Pos.to_uint p)) as [|c r] eqn:E.
    + destruct (Pos.to_uint p); simpl in E; congruence.
    + destruct (uint_head_not_sign _ _ _ E) as [-> ->].
      rewrite <- E, (digits_uint _ Hp). cbn [Js.num_of_option]. f_equal. exact Hz.
  - pose proof (DecimalPos.Unsigned.to_uint_nonnil p) as Hp.
    cbn [Z.to_int NilEmpty.string_of_int] in *.
    rewrite Ascii.eqb_refl, (digits_uint _ Hp). cbn. f_equal. exact Hz.
Qed.

(** ** Fragments written by [updateHash], parsed back *)

Lemma parse_pair_plain (k v : string) (result : gmap string string) :
  Js.is_empty k = false -> no_char "=" k = true -> plain v = true ->
  parse_pair (Js.split "=" (k +:+ String "=" v)) result
  = inr (assign k v result).
Proof.
  intros Hk Hke Hv.
  rewrite (split_app "=" k v Hke).
  rewrite (split_no_char "=" v (plain_no_char "=" v eq_refl Hv)).
  unfold parse_pair. cbn [hd nth_error]. rewrite Hk.
  rewrite (decodeURIComponent_no_percent v (plain_no_char "%" v eq_refl Hv)).
  reflexivity.
Qed.

Lemma parseHash_book (b : string) :
  plain b = true -> parseHash ("#book=" +:+ b) = inr {[ "book" := b ]}.
Proof.
  intros Hb. unfold parseHash.
  change (strip_hash ("#book=" +:+ b)) with ("book=" +:+ b).
  change (Js.is_empty ("book=" +:+ b)) with false. cbv iota.
  rewrite (split_no_char "&" ("book=" +:+ b)).
  2:{ rewrite no_char_app, (plain_no_char "&" b eq_refl Hb). reflexivity. }
  cbn [map forEach_pairs].
  change ("book=" +:+ b) with ("book" +:+ String "=" b).
  rewrite (parse_pair_plain "book" b ∅ eq_refl eq_refl Hb). reflexivity.
Qed.

Lemma parseHash_chapter (n : string) :
  plain n = true -> parseHash ("#chapter=" +:+ n) = inr {[ "chapter" := n ]}.
Proof.
  intros Hn. unfold parseHash.
  change (strip_hash ("#chapter=" +:+ n)) with ("chapter=" +:+ n).
  change (Js.is_empty ("chapter=" +:+ n)) with false. cbv iota.
  rewrite (split_no_char "&" ("chapter=" +:+ n)).
  2:{ rewrite no_char_app, (plain_no_char "&" n eq_refl Hn). reflexivity. }
  cbn [map forEach_pairs].
  change ("chapter=" +:+ n) with ("chapter" +:+ String "=" n).
  rewrite (parse_pair_plain "chapter" n ∅ eq_refl eq_refl Hn). reflexivity.
Qed.

Lemma parseHash_book_chapter (b n : string) :
  plain b = true -> plain n = true ->
  parseHash ("#book=" +:+ b +:+ "&chapter=" +:+ n)
  = inr (<[ "chapter" := n ]> {[ "book" := b ]}).
Proof.
  intros Hb Hn. unfold parseHash.
  change (strip_hash ("#book=" +:+ b +:+ "&chapter=" +:+ n))
    with (("book=" +:+ b) +:+ String "&" ("chapter=" +:+ n)).
  change (Js.is_empty (("book=" +:+ b) +:+ String "&" ("chapter=" +:+ n)))
    with false. cbv iota.
  rewrite (split_app "&" ("book=" +:+ b) ("chapter=" +:+ n)).
  2:{ rewrite no_char_app, (plain_no_char "&" b eq_refl Hb). reflexivity. }
  rewrite (split_no_char "&" ("chapter=" +:+ n)).
  2:{ rewrite no_char_app, (plain_no_char "&" n eq_refl Hn). reflexivity. }
  cbn [map forEach_pairs].
  change ("book=" +:+ b) with ("book" +:+ String "=" b).
  rewrite (parse_pair_plain "book" b ∅ eq_refl eq_refl Hb).
  change ("chapter=" +:+ n) with ("chapter" +:+ String "=" n).
  rewrite (parse_pair_plain "chapter" n _ eq_refl eq_refl Hn). reflexivity.
Qed.

Lemma truthy_Z_toString (z : Z) : Js.truthy (Js.VStr (Js.Z_toString z)) = true.
Proof.
  cbn [Js.truthy]. destruct (String.eqb_spec (Js.Z_toString z) "") as [E|]; [|reflexivity].
  destruct (Z_toString_nonempty z E).
Qed.

(** ** The handlers, field by field *)

Ltac fields :=
  cbn [booksIndex bookCache currentBookId currentChapter title backBtn_hidden
       main_className main_content booksGrid location_hash history alerts
       fetches set_bookCache set_currentBookId set_currentChapter setTitle
       set_backBtn_hidden set_main_className set_main_content renderBooksGrid
       replaceState alert fetch showBooks renderChaptersView updateHash
       openBook_catch state_of settle property_key value_of Js.Number
       pending_options pending_path opt_chapter opt_showChaptersOnly
       no_options Js.toString] in *.

Lemma find_chapter_first (book : Book) (c : Chapter) (rest : list Chapter) :
  book_chapters book = c :: rest ->
  find_chapter (Js.Int (ch_number c)) book = Some c.
Proof.
  intros H. unfold find_chapter. rewrite H. cbn [List.find Js.strict_eq].
  rewrite Z.eqb_refl. reflexivity.
Qed.

Lemma find_chapter_none (book : Book) (n : Z) :
  (forall c, In c (book_chapters book) -> ch_number c <> n) ->
  find_chapter (Js.Int n) book = None.
Proof.
  unfold find_chapter. induction (book_chapters book) as [|c l IH]; intros H.
  - reflexivity.
  - cbn [List.find Js.strict_eq].
    destruct (Z.eqb_spec (ch_number c) n) as [E|_].
    + destruct (H c (or_introl eq_refl) E).
    + apply IH. intros c' Hc'. apply H. right. exact Hc'.
Qed.

(** What [openChapter] leaves as it found it. *)
Lemma openChapter_keeps (b n : Js.num) (st : State) :
  bookCache (openChapter b n st) = bookCache st
  /\ booksIndex (openChapter b n st) = booksIndex st
  /\ currentBookId (openChapter b n st) = currentBookId st
  /\ alerts (openChapter b n st) = alerts st
  /\ fetches (openChapter b n st) = fetches st.
Proof.
  unfold openChapter.
  destruct (bookCache st !! Js.toString b) as [[book|name complaint]|].
  - destruct (find_chapter n book); fields; repeat split; reflexivity.
  - repeat split; reflexivity.
  - repeat split; reflexivity.
Qed.

(** [openChapter] throws only of a key that holds an object without
    [chapters]. *)
Lemma openChapter_quiet (b n : Js.num) (st : State) :
  (forall name complaint,
     bookCache st !! Js.toString b <> Some (Misshapen name complaint)) ->
  openChapter_caught b n st = openChapter b n st.
Proof.
  intros H. unfold openChapter_caught, openChapter_thrown.
  destruct (bookCache st !! Js.toString b) as [[book|name complaint]|];
    try reflexivity.
  destruct (H name complaint eq_refl).
Qed.

Lemma openChapter_caught_keeps (b n : Js.num) (st : State) :
  bookCache (openChapter_caught b n st) = bookCache st
  /\ booksIndex (openChapter_caught b n st) = booksIndex st
  /\ fetches (openChapter_caught b n st) = fetches st.
Proof.
  destruct (openChapter_keeps b n st) as (Hc & Hi & _ & _ & Hf).
  unfold openChapter_caught. destruct (openChapter_thrown b st); fields;
    repeat split; assumption.
Qed.

Lemma openBook_show_keeps (book : Book) (options : Options) (st : State) :
  bookCache (openBook_show book options st) = bookCache st
  /\ booksIndex (openBook_show book options st) = booksIndex st
  /\ fetches (openBook_show book options st) = fetches st.
Proof.
  unfold openBook_show.
  destruct (Js.truthy (opt_chapter options));
    [|destruct (opt_showChaptersOnly options)];
    try (destruct (openChapter_caught_keeps (Js.Int (book_id book))
                     (Js.Number (opt_chapter options))
                     (renderChaptersView book st)) as (-> & -> & ->));
    try (destruct (openChapter_caught_keeps (Js.Int (book_id book))
                     (first_number book)
                     (renderChaptersView book st)) as (-> & -> & ->));
    fields; repeat split; reflexivity.
Qed.

(** When the key of the book's own id holds no object without
    [chapters], nothing is thrown and [currentBookId] and the alerts
    are kept too. *)
Lemma openBook_show_quiet (book : Book) (options : Options) (st : State) :
  (forall name complaint,
     bookCache st !! Js.Z_toString (book_id book)
     <> Some (Misshapen name complaint)) ->
  currentBookId (openBook_show book options st) = currentBookId st
  /\ alerts (openBook_show book options st) = alerts st.
Proof.
  intros H. unfold openBook_show.
  rewrite !openChapter_quiet by (fields; exact H).
  destruct (Js.truthy (opt_chapter options));
    [|destruct (opt_showChaptersOnly options)];
    try (destruct (openChapter_keeps (Js.Int (book_id book))
                     (Js.Number (opt_chapter options))
                     (renderChaptersView book st)) as (_ & _ & -> & -> & _));
    try (destruct (openChapter_keeps (Js.Int (book_id book))
                     (first_number book)
                     (renderChaptersView book st)) as (_ & _ & -> & -> & _));
    fields; split; reflexivity.
Qed.

(** A chapter the cached book has: the verses are shown and the
    fragment is written. *)
Lemma openChapter_found (id n : Z) (book : Book) (c : Chapter) (st : State) :
  bookCache st !! Js.Z_toString id = Some (Shaped book) ->
  find_chapter (Js.Int n) book = Some c ->
  openChapter (Js.Int id) (Js.Int n) st
  = updateHash {| params_book := Some (Js.Int id);
                  params_chapter := Some (Js.Int n) |}
      (set_main_content (VersesView c)
         (set_main_className VersesPage
            (setTitle (book_name book +:+ " â€” " +:+ Js.Z_toString n)
               (set_currentChapter (Some (Js.Int n)) st)))).
Proof.
  intros Hc Hf. unfold openChapter. cbn [Js.toString]. rewrite Hc, Hf.
  reflexivity.
Qed.

(** A chapter the cached book does not have: the notice is shown on
    the verses page and nothing is written to the URL. *)
Lemma openChapter_missing (id : Z) (n : Js.num) (book : Book) (st : State) :
  bookCache st !! Js.Z_toString id = Some (Shaped book) ->
  find_chapter n book = None ->
  openChapter (Js.Int id) n st
  = set_main_content ChapterNotFound
      (set_main_className VersesPage
         (setTitle (book_name book +:+ " â€” " +:+ Js.toString n)
            (set_currentChapter (Some n) st))).
Proof.
  intros Hc Hf. unfold openChapter. cbn [Js.toString]. rewrite Hc, Hf.
  reflexivity.
Qed.

Lemma openChapter_caught_shaped (id : Z) (n : Js.num) (book : Book)
  (st : State) :
  bookCache st !! Js.Z_toString id = Some (Shaped book) ->
  openChapter_caught (Js.Int id) n st = openChapter (Js.Int id) n st.
Proof.
  intros H. apply openChapter_quiet. cbn [Js.toString]. rewrite H.
  intros name complaint [=].
Qed.

Lemma openChapter_caught_uncached (b n : Js.num) (st : State) :
  bookCache st !! Js.toString b = None -> openChapter_caught b n st = st.
Proof.
  intros H. unfold openChapter_caught, openChapter_thrown, openChapter.
  rewrite H. reflexivity.
Qed.

(** ** The deep-link codec *)

Lemma truthy_param_Int (z : Z) : z <> 0 -> truthy_param (Some (Js.Int z)) = true.
Proof.
  intros H. cbn. destruct (Z.eqb_spec z 0); [contradiction | reflexivity].
Qed.

Lemma state_of_link_book (b : Z) :
  state_of_link {[ "book" := Js.Z_toString b ]} = Some (ChapterList b).
Proof.
  unfold state_of_link, read. rewrite lookup_singleton_eq.
  rewrite truthy_Z_toString. cbn [Js.Number]. rewrite Number_Z_toString.
  rewrite lookup_singleton_ne by discriminate. reflexivity.
Qed.

Lemma state_of_link_book_chapter (b n : Z) :
  state_of_link (<[ "chapter" := Js.Z_toString n ]> {[ "book" := Js.Z_toString b ]})
  = Some (VerseList b n).
Proof.
  unfold state_of_link, read.
  rewrite lookup_insert_ne by discriminate. rewrite lookup_singleton_eq.
  rewrite truthy_Z_toString. cbn [Js.Number]. rewrite Number_Z_toString.
  rewrite lookup_insert_eq. cbn [Js.Number].
  rewrite truthy_Z_toString, Number_Z_toString.
  reflexivity.
Qed.

(** C1, as amended.  For every navigation state whose book id and
    chapter number are not [0], [parseHash] applied to the fragment
    that [updateHash] writes for the state returns the keys of the
    state and no other, each holding the decimal string of its
    integer; read as [handleDeepLink], [openBook] and [openChapter]
    read them (through [Number]) they are the state again. *)
Theorem deep_link_round_trip (s : NavigationState) :
  nonzero s ->
  exists h : gmap string string,
    parseHash (fragment_of_state s) = inr h
    /\ state_of_link h = Some s
    /\ h = match s with
           | Library => ∅
           | ChapterList b => {[ "book" := Js.Z_toString b ]}
           | VerseList b n =>
               <[ "chapter" := Js.Z_toString n ]> {[ "book" := Js.Z_toString b ]}
           end.
Proof.
  destruct s as [|b|b n]; cbn [nonzero].
  - intros _. exists ∅. repeat split; reflexivity.
  - intros Hb. eexists. split; [|split; [|reflexivity]].
    + unfold fragment_of_state, updateHash_url, updateHash_parts.
      cbn [params_of params_book params_chapter].
      rewrite (truthy_param_Int b Hb).
      apply (parseHash_book _ (plain_Z_toString b)).
    + apply state_of_link_book.
  - intros [Hb Hn]. eexists. split; [|split; [|reflexivity]].
    + unfold fragment_of_state, updateHash_url, updateHash_parts.
      cbn [params_of params_book params_chapter].
      rewrite (truthy_param_Int b Hb), (truthy_param_Int n Hn).
      apply (parseHash_book_chapter _ _ (plain_Z_toString b) (plain_Z_toString n)).
    + apply state_of_link_book_chapter.
Qed.

Lemma deep_link_round_trip_witness :
  exists h : gmap string string,
    parseHash (fragment_of_state (VerseList 19 23)) = inr h
    /\ state_of_link h = Some (VerseList 19 23)
    /\ h = <[ "chapter" := "23" ]> {[ "book" := "19" ]}.
Proof.
  apply (deep_link_round_trip (VerseList 19 23)). cbn. split; lia.
Defined.

(** C1 fails as stated: the chapter list of a book whose id is [0]
    writes the fragment of the library, and decodes to the library. *)
Lemma round_trip_fails_at_zero :
  exists h : gmap string string,
    parseHash (fragment_of_state (ChapterList 0)) = inr h
    /\ state_of_link h = Some Library
    /\ state_of_link h <> Some (ChapterList 0).
Proof.
  exists ∅. split; [reflexivity | split; [reflexivity | discriminate]].
Qed.

(** C10.  [updateHash] writes a key exactly when its value is truthy:
    the URL it hands to [history.replaceState] is given by the table
    below, and the fragment parsed back has the key [book] (resp.
    [chapter]) if and only if the value was truthy.  A book id or a
    chapter number of [0] is left out as an absent one is, so the
    chapter list of book [0] writes what the library writes; and when
    no part remains the URL is one space, not the empty string and not
    a lone [#]. *)
Theorem updateHash_writes_truthy_keys (params : HashParams) :
  updateHash_url params
  = match truthy_param (params_book params),
          truthy_param (params_chapter params) with
    | true, true =>
        "#book=" +:+ template (params_book params)
        +:+ "&chapter=" +:+ template (params_chapter params)
    | true, false => "#book=" +:+ template (params_book params)
    | false, true => "#chapter=" +:+ template (params_chapter params)
    | false, false => " "
    end
  /\ (exists h : gmap string string,
        parseHash (fragment_of (updateHash_url params)) = inr h
        /\ (is_Some (h !! "book")
            <-> truthy_param (params_book params) = true)
        /\ (is_Some (h !! "chapter")
            <-> truthy_param (params_chapter params) = true))
  /\ updateHash_url {| params_book := Some (Js.Int 0);
                       params_chapter := params_chapter params |}
     = updateHash_url {| params_book := None;
                         params_chapter := params_chapter params |}
  /\ updateHash_url {| params_book := params_book params;
                       params_chapter := Some (Js.Int 0) |}
     = updateHash_url {| params_book := params_book params;
                         params_chapter := None |}
  /\ updateHash_url (params_of (ChapterList 0))
     = updateHash_url (params_of Library)
  /\ (forall st : State,
        history (updateHash params st)
        = (history st ++ [updateHash_url params])%list
        /\ location_hash (updateHash params st)
           = fragment_of (updateHash_url params)).
Proof.
  assert (Ht : forall p, truthy_param p = true -> plain (template p) = true).
  { intros [[|z]|]; cbn; try discriminate. intros _. apply plain_Z_toString. }
  assert (Hu : updateHash_url params
    = match truthy_param (params_book params),
            truthy_param (params_chapter params) with
      | true, true =>
          "#book=" +:+ template (params_book params)
          +:+ "&chapter=" +:+ template (params_chapter params)
      | true, false => "#book=" +:+ template (params_book params)
      | false, true => "#chapter=" +:+ template (params_chapter params)
      | false, false => " "
      end).
  { unfold updateHash_url, updateHash_parts.
    destruct (truthy_param (params_book params)),
      (truthy_param (params_chapter params)); reflexivity. }
  split; [exact Hu|]. split; [|repeat split; reflexivity].
  rewrite Hu. clear Hu.
  destruct (truthy_param (params_book params)) eqn:Eb,
    (truthy_param (params_chapter params)) eqn:Ec.
  - eexists. split.
    + apply (parseHash_book_chapter _ _ (Ht _ Eb) (Ht _ Ec)).
    + rewrite lookup_insert_ne by discriminate.
      rewrite lookup_singleton_eq, lookup_insert_eq. split; split; eauto.
  - eexists. split.
    + apply (parseHash_book _ (Ht _ Eb)).
    + rewrite lookup_singleton_eq, lookup_singleton_ne by discriminate.
      split; split; eauto; try discriminate. intros [? [=]].
  - eexists. split.
    + apply (parseHash_chapter _ (Ht _ Ec)).
    + rewrite lookup_singleton_eq, lookup_singleton_ne by discriminate.
      split; split; eauto; try discriminate. intros [? [=]].
  - exists ∅. split; [reflexivity|]. rewrite !lookup_empty.
    split; split; try discriminate; intros [? [=]].
Qed.

(** ** [parseHash] on any fragment *)













(** ** Opening a book *)

Lemma openBook_cached (id : Z) (options : Options) (book : Book) (st : State) :
  bookCache st !! Js.Z_toString id = Some (Shaped book) ->
  openBook (Js.VNum (Js.Int id)) options st
  = Done (openBook_show book options
            (set_backBtn_hidden false
               (setTitle "Loading..."
                  (set_currentBookId (Some (Js.Int id)) st)))).
Proof. intros H. unfold openBook. fields. rewrite H. reflexivity. Qed.

Lemma openBook_request (id : Z) (options : Options) (meta : Meta) (st : State) :
  bookCache st !! Js.Z_toString id = None ->
  find_meta (Js.Int id) (booksIndex st) = Some meta ->
  openBook (Js.VNum (Js.Int id)) options st
  = Await (fetch (meta_file meta)
             (set_backBtn_hidden false
                (setTitle "Loading..."
                   (set_currentBookId (Some (Js.Int id)) st))))
      {| pending_path := meta_file meta; pending_options := options |}.
Proof. intros H Hm. unfold openBook. fields. rewrite H, Hm. reflexivity. Qed.

Lemma openBook_show_first (id : Z) (book : Book) (c : Chapter)
  (rest : list Chapter) (st : State) :
  book_id book = id ->
  book_chapters book = c :: rest ->
  bookCache st !! Js.Z_toString id = Some (Shaped book) ->
  openBook_show book no_options st
  = updateHash {| params_book := Some (Js.Int id);
                  params_chapter := Some (Js.Int (ch_number c)) |}
      (set_main_content (VersesView c)
         (set_main_className VersesPage
            (setTitle (book_name book +:+ " â€” " +:+ Js.Z_toString (ch_number c))
               (set_currentChapter (Some (Js.Int (ch_number c)))
                  (renderChaptersView book st))))).
Proof.
  intros Hid Hch Hc. unfold openBook_show. cbn [no_options opt_chapter
    opt_showChaptersOnly Js.truthy]. cbv iota.
  unfold first_number. rewrite Hch, Hid.
  rewrite (openChapter_caught_shaped id _ book) by (fields; exact Hc).
  apply openChapter_found; [exact Hc | apply (find_chapter_first book c rest Hch)].
Qed.

Lemma openBook_cached_fetches (id : Z) (options : Options) (book : Book)
  (st : State) :
  bookCache st !! Js.Z_toString id = Some (Shaped book) ->
  exists st' : State,
    openBook (Js.VNum (Js.Int id)) options st = Done st'
    /\ fetches st' = fetches st.
Proof.
  intros H. eexists. split; [apply (openBook_cached id options book st H)|].
  match goal with
  | |- context [openBook_show ?b ?o ?s] =>
      destruct (openBook_show_keeps b o s) as (_ & _ & ->)
  end.
  reflexivity.
Qed.

Lemma openBook_resume_caches (k : Pending) (book : Book) (st : State) :
  bookCache (openBook_resume k (Json book) st)
  !! property_key (currentBookId st) = Some (Shaped book)
  /\ fetches (openBook_resume k (Json book) st) = fetches st.
Proof.
  cbn [openBook_resume].
  match goal with
  | |- context [openBook_show ?b ?o ?s] =>
      destruct (openBook_show_keeps b o s) as (-> & _ & ->)
  end.
  fields. split; [apply lookup_insert_eq | reflexivity].
Qed.

(** C6, as amended.  When the content of book [id] is at hand,
    carries the id it is asked for under ([book.id] is [id]) and has a
    first chapter [c], [openBook(id)] without options ends on the
    verses of [c], the first element of [chapters] whatever the
    numbers of the others, with [currentBookId = id] and
    [currentChapter = c.number]: both when the content comes from the
    request the call issues and when it is already cached.  The
    fragment then is what [updateHash] writes for the two numbers.  On
    the library of the one book Genesis the page ends on the verses of
    chapter 1 with the fragment [#book=1&chapter=1]. *)
Theorem openBook_opens_first_chapter (st : State) (id : Z) (book : Book)
  (c : Chapter) (rest : list Chapter) :
  book_id book = id ->
  book_chapters book = c :: rest ->
  (forall meta : Meta,
     bookCache st !! Js.Z_toString id = None ->
     find_meta (Js.Int id) (booksIndex st) = Some meta ->
     let st' := settle (openBook (Js.VNum (Js.Int id)) no_options st)
                  (Json book) in
     at_verses id c st'
     /\ location_hash st'
        = fragment_of_state (VerseList id (ch_number c)))
  /\ (forall r : response,
        bookCache st !! Js.Z_toString id = Some (Shaped book) ->
        let st' := settle (openBook (Js.VNum (Js.Int id)) no_options st) r in
        at_verses id c st'
        /\ location_hash st'
           = fragment_of_state (VerseList id (ch_number c)))
  /\ at_verses 1 genesis_ch1 genesis_open
  /\ location_hash genesis_open = "#book=1&chapter=1".
Proof.
  intros Hid Hch. split; [|split; [|split; [repeat split|]; reflexivity]].
  - intros meta Hmiss Hmeta st'. subst st'.
    rewrite (openBook_request id no_options meta st Hmiss Hmeta).
    cbn [settle openBook_resume pending_options]. fields.
    rewrite (openBook_show_first id book c rest _ Hid Hch).
    2:{ fields. apply lookup_insert_eq. }
    repeat split; reflexivity.
  - intros r Hhit st'. subst st'.
    rewrite (openBook_cached id no_options book st Hhit). cbn [settle].
    rewrite (openBook_show_first id book c rest _ Hid Hch) by (fields; exact Hhit).
    repeat split; reflexivity.
Qed.

Lemma openBook_opens_first_chapter_witness :
  at_verses 19 psalm23
    (settle (openBook (Js.VNum (Js.Int 19)) no_options (start [psalms_meta]))
       (Json psalms))
  /\ location_hash
       (settle (openBook (Js.VNum (Js.Int 19)) no_options (start [psalms_meta]))
          (Json psalms))
     = "#book=19&chapter=23".
Proof.
  destruct (openBook_opens_first_chapter (start [psalms_meta]) 19 psalms
              psalm23 [psalm1] eq_refl eq_refl) as (H & _).
  apply (H psalms_meta); reflexivity.
Defined.

(** C6 fails as stated: the file of Genesis holds a book whose id is
    19, not 1; it loads, and the tap on Genesis ends on the chapter
    list with no chapter opened and the URL not written. *)
Lemma loaded_book_of_another_id :
  main_className
    (settle (openBook (Js.VNum (Js.Int 1)) no_options (start [genesis_meta]))
       (Json psalms)) = ChaptersPage
  /\ main_className
       (settle (openBook (Js.VNum (Js.Int 1)) no_options (start [genesis_meta]))
          (Json psalms)) <> VersesPage
  /\ currentChapter
       (settle (openBook (Js.VNum (Js.Int 1)) no_options (start [genesis_meta]))
          (Json psalms)) = None
  /\ location_hash
       (settle (openBook (Js.VNum (Js.Int 1)) no_options (start [genesis_meta]))
          (Json psalms)) = EmptyString.
Proof.
  split; [vm_compute; reflexivity|].
  split; [vm_compute; discriminate|].
  split; vm_compute; reflexivity.
Qed.

(** C7, as amended.  When [openBook(id)] fails because the index has
    no entry for [id] (no request is issued then) or because
    [fetchJson] throws, in whatever state the page is when it throws,
    the message is alerted once, the page is the library again with
    [currentBookId] and [currentChapter] null, and [bookCache] is what
    it was.  When the file that arrives is JSON of another shape, an
    object without [chapters], the message is alerted once and the
    page is the library again in the same way, but the object has been
    stored in [bookCache] under [currentBookId] before
    [renderChaptersView] throws. *)
Theorem openBook_failure_reverts (st : State) (id : Z) (options : Options) :
  (bookCache st !! Js.Z_toString id = None ->
   find_meta (Js.Int id) (booksIndex st) = None ->
   exists st' : State,
     openBook (Js.VNum (Js.Int id)) options st = Done st'
     /\ at_library st'
     /\ alerts st'
        = (alerts st ++ ["Failed to open book: Book meta not found"])%list
     /\ bookCache st' = bookCache st
     /\ fetches st' = fetches st)
  /\ (forall (k : Pending) (message : string) (now : State),
        at_library (openBook_resume k (Failed message) now)
        /\ alerts (openBook_resume k (Failed message) now)
           = (alerts now ++ ["Failed to open book: " +:+ message])%list
        /\ bookCache (openBook_resume k (Failed message) now) = bookCache now)
  /\ (forall (meta : Meta) (message : string),
        bookCache st !! Js.Z_toString id = None ->
        find_meta (Js.Int id) (booksIndex st) = Some meta ->
        let st' := settle (openBook (Js.VNum (Js.Int id)) options st)
                     (Failed message) in
        at_library st'
        /\ alerts st'
           = (alerts st ++ ["Failed to open book: " +:+ message])%list
        /\ bookCache st' = bookCache st)
  /\ (forall (k : Pending) (name : string) (complaint : string -> string)
         (now : State),
        at_library (openBook_resume k (JsonOther name complaint) now)
        /\ alerts (openBook_resume k (JsonOther name complaint) now)
           = (alerts now
              ++ ["Failed to open book: " +:+ complaint "length"])%list
        /\ bookCache (openBook_resume k (JsonOther name complaint) now)
           = <[property_key (currentBookId now) := Misshapen name complaint]>
               (bookCache now))
  /\ (forall (meta : Meta) (name : string) (complaint : string -> string),
        bookCache st !! Js.Z_toString id = None ->
        find_meta (Js.Int id) (booksIndex st) = Some meta ->
        let st' := settle (openBook (Js.VNum (Js.Int id)) options st)
                     (JsonOther name complaint) in
        at_library st'
        /\ alerts st'
           = (alerts st
              ++ ["Failed to open book: " +:+ complaint "length"])%list
        /\ bookCache st'
           = <[Js.Z_toString id := Misshapen name complaint]> (bookCache st)).
Proof.
  split; [|split; [|split; [|split]]].
  - intros Hmiss Hmeta. eexists. split.
    + unfold openBook. fields. rewrite Hmiss, Hmeta. reflexivity.
    + repeat split; reflexivity.
  - intros k message now. repeat split; reflexivity.
  - intros meta message Hmiss Hmeta st'. subst st'.
    rewrite (openBook_request id options meta st Hmiss Hmeta).
    repeat split; reflexivity.
  - intros k name complaint now. repeat split; reflexivity.
  - intros meta name complaint Hmiss Hmeta st'. subst st'.
    rewrite (openBook_request id options meta st Hmiss Hmeta).
    repeat split; reflexivity.
Qed.

Lemma openBook_failure_reverts_witness :
  exists st' : State,
    openBook (Js.VNum (Js.Int 7)) no_options (start [genesis_meta]) = Done st'
    /\ at_library st'
    /\ alerts st' = ["Failed to open book: Book meta not found"]
    /\ bookCache st' = ∅
    /\ fetches st' = [].
Proof.
  destruct (openBook_failure_reverts (start [genesis_meta]) 7 no_options)
    as (H & _).
  apply H; reflexivity.
Defined.

(** C7 fails as stated: the file of Genesis is [{}]; the tap on
    Genesis fails, with one alert and the library shown, and the cache,
    empty before, holds the object under the key of 1. *)
Lemma misshapen_file_is_cached :
  bookCache (start [genesis_meta]) !! "1" = None
  /\ bookCache
       (settle (openBook (Js.VNum (Js.Int 1)) no_options (start [genesis_meta]))
          empty_object) !! "1"
     = Some (Misshapen "undefined"
               (fun p => "Cannot read properties of undefined (reading '"
                         +:+ p +:+ "')"))
  /\ at_library
       (settle (openBook (Js.VNum (Js.Int 1)) no_options (start [genesis_meta]))
          empty_object)
  /\ alerts
       (settle (openBook (Js.VNum (Js.Int 1)) no_options (start [genesis_meta]))
          empty_object)
     = ["Failed to open book: Cannot read properties of undefined (reading 'length')"].
Proof.
  split; [vm_compute; reflexivity|].
  split; [vm_compute; reflexivity|].
  split; [|vm_compute; reflexivity].
  unfold at_library. repeat (split; [vm_compute; reflexivity|]).
  vm_compute; reflexivity.
Qed.

(** C5, as amended.  [openBook] looks for the book in [bookCache]
    only; no open request is recorded anywhere.  Every call for an id
    that is not cached when the call is made issues its own request
    for the book file, so a second call that arrives before the first
    request settles issues a second one.  A call made after a request
    for the id has settled with the book while the id was still
    [currentBookId] (no other book was opened and the library was not
    shown in between) finds the book cached and issues none; this
    holds of the state after the first call and of the state after the
    second. *)
Theorem openBook_fetches_per_call (st : State) (id : Z) (meta : Meta)
  (o1 o2 o3 : Options) :
  bookCache st !! Js.Z_toString id = None ->
  find_meta (Js.Int id) (booksIndex st) = Some meta ->
  exists (st1 st2 : State) (k1 k2 : Pending),
    openBook (Js.VNum (Js.Int id)) o1 st = Await st1 k1
    /\ fetches st1 = (fetches st ++ [meta_file meta])%list
    /\ openBook (Js.VNum (Js.Int id)) o2 st1 = Await st2 k2
    /\ fetches st2 = (fetches st ++ [meta_file meta; meta_file meta])%list
    /\ currentBookId st1 = Some (Js.Int id)
    /\ currentBookId st2 = Some (Js.Int id)
    /\ forall (now : State) (k : Pending) (book : Book),
         currentBookId now = Some (Js.Int id) ->
         exists st3 : State,
           openBook (Js.VNum (Js.Int id)) o3
             (openBook_resume k (Json book) now) = Done st3
           /\ fetches st3 = fetches now.
Proof.
  intros Hmiss Hmeta. do 4 eexists.
  split; [apply (openBook_request id o1 meta st Hmiss Hmeta)|].
  split; [reflexivity|].
  split; [apply (openBook_request id o2 meta _); fields; assumption|].
  split; [fields; rewrite <- app_assoc; reflexivity|].
  split; [reflexivity|]. split; [reflexivity|].
  intros now k book Hnow.
  destruct (openBook_resume_caches k book now) as (Hc & Hf).
  rewrite Hnow in Hc. cbn [property_key Js.toString] in Hc.
  rewrite <- Hf.
  apply (openBook_cached_fetches id o3 book _ Hc).
Qed.

Lemma openBook_fetches_per_call_witness :
  exists (st1 st2 : State) (k1 k2 : Pending),
    openBook (Js.VNum (Js.Int 1)) no_options (start [genesis_meta])
    = Await st1 k1
    /\ fetches st1 = ["g.json"]
    /\ openBook (Js.VNum (Js.Int 1)) no_options st1 = Await st2 k2
    /\ fetches st2 = ["g.json"; "g.json"]
    /\ currentBookId st1 = Some (Js.Int 1)
    /\ currentBookId st2 = Some (Js.Int 1)
    /\ forall (now : State) (k : Pending) (book : Book),
         currentBookId now = Some (Js.Int 1) ->
         exists st3 : State,
           openBook (Js.VNum (Js.Int 1)) no_options
             (openBook_resume k (Json book) now) = Done st3
           /\ fetches st3 = fetches now.
Proof.
  apply (openBook_fetches_per_call (start [genesis_meta]) 1 genesis_meta
           no_options no_options no_options); reflexivity.
Defined.

(** C5 fails as stated: two taps on Genesis before its file arrives
    issue two requests for it. *)
Lemma two_requests_for_one_book :
  fetches
    (state_of
       (openBook (Js.VNum (Js.Int 1)) no_options
          (state_of
             (openBook (Js.VNum (Js.Int 1)) no_options (start [genesis_meta])))))
  = ["g.json"; "g.json"].
Proof. reflexivity. Qed.

(** ** Back *)

(** C4, as amended.  With [currentChapter] set and the current book
    cached, the back button shows the chapter list of that book,
    [currentBookId] unchanged; with [currentChapter] null it shows the
    library and sets [currentBookId] and [currentChapter] to null.
    Neither step writes the URL: the fragment and the history stay
    what they were. *)
Theorem backBtn_click_steps (st : State) :
  (forall (b : Z) (n : Js.num) (book : Book),
     currentBookId st = Some (Js.Int b) ->
     currentChapter st = Some n ->
     bookCache st !! Js.Z_toString b = Some (Shaped book) ->
     exists st' : State,
       backBtn_click st = Done st'
       /\ main_className st' = ChaptersPage
       /\ main_content st' = ChaptersView book
       /\ currentBookId st' = Some (Js.Int b)
       /\ location_hash st' = location_hash st
       /\ history st' = history st)
  /\ (currentChapter st = None ->
      exists st' : State,
        backBtn_click st = Done st'
        /\ at_library st'
        /\ location_hash st' = location_hash st
        /\ history st' = history st).
Proof.
  split.
  - intros b n book Hb Hn Hc. unfold backBtn_click. rewrite Hn, Hb.
    cbn [value_of]. rewrite (openBook_cached b _ book st Hc).
    eexists. split; [reflexivity|]. repeat split; reflexivity.
  - intros Hn. unfold backBtn_click. rewrite Hn.
    eexists. split; [reflexivity|]. repeat split; reflexivity.
Qed.

Lemma backBtn_click_steps_witness :
  exists st' : State,
    backBtn_click genesis_open = Done st'
    /\ main_className st' = ChaptersPage
    /\ main_content st' = ChaptersView genesis
    /\ currentBookId st' = Some (Js.Int 1)
    /\ location_hash st' = location_hash genesis_open
    /\ history st' = history genesis_open.
Proof.
  destruct (backBtn_click_steps genesis_open) as (H & _).
  apply (H 1 (Js.Int 1) genesis); reflexivity.
Defined.

(** C4 fails as stated: from the verses of Genesis 1, reached by a
    tap on the book, the first back shows the chapter list and the
    second shows it again, [currentChapter] still being 1; the library
    is not reached and the fragment stays [#book=1&chapter=1]. *)
Lemma back_twice_stays_on_chapters :
  at_verses 1 genesis_ch1 genesis_open
  /\ exists st1 st2 : State,
       backBtn_click genesis_open = Done st1
       /\ backBtn_click st1 = Done st2
       /\ main_className st1 = ChaptersPage
       /\ main_className st2 = ChaptersPage
       /\ currentChapter st2 = Some (Js.Int 1)
       /\ location_hash st1 = "#book=1&chapter=1"
       /\ location_hash st2 = "#book=1&chapter=1".
Proof.
  split.
  - unfold at_verses.
    repeat (split; [vm_compute; reflexivity|]). vm_compute; reflexivity.
  - exists (state_of (backBtn_click genesis_open)),
      (state_of (backBtn_click (state_of (backBtn_click genesis_open)))).
    repeat (split; [vm_compute; reflexivity|]). vm_compute; reflexivity.
Qed.

(** The deep link of a fresh page.  [loadInitial] calls [showBooks]
    while the request of the link is open, so the book is stored under
    the key of [null]: the chapter list is shown, [openChapter] does
    not find the book, and no verses are shown. *)
Example deep_link_at_startup :
  exists (st : State) (k : Pending),
    loadInitial [genesis_meta] "#book=1&chapter=1" = inr (Await st k)
    /\ bookCache (openBook_resume k (Json genesis) st) = {[ "null" := Shaped genesis ]}
    /\ main_className (openBook_resume k (Json genesis) st) = ChaptersPage
    /\ currentBookId (openBook_resume k (Json genesis) st) = None
    /\ currentChapter (openBook_resume k (Json genesis) st) = None.
Proof. do 2 eexists. split; [reflexivity|]. repeat split; reflexivity. Qed.

(** ** Search *)




Lemma trimStart_white (w : list N) (rest : string) :
  In w white_space -> Js.trimStart (of_octets w rest) = Js.trimStart rest.
Proof.
  unfold white_space. cbn [In]. intros H.
  repeat (destruct H as [<-|H]; [reflexivity|]). destruct H.
Qed.

Lemma trim_white (s : string) : whitespace_only s -> Js.trim s = EmptyString.
Proof.
  intros H. unfold Js.trim.
  assert (E : Js.trimStart s = EmptyString).
  { induction H as [|w rest Hw _ IH]; [reflexivity|].
    rewrite (trimStart_white w rest Hw). exact IH. }
  rewrite E. reflexivity.
Qed.

Lemma ascii_toLowerCase_empty (s : string) :
  ascii_toLowerCase s = EmptyString <-> s = EmptyString.
Proof. destruct s; cbn; split; congruence. Qed.

Section SearchProofs.

Variable toLowerCase : string -> string.
Hypothesis lower_empty :
  forall s : string, toLowerCase s = EmptyString <-> s = EmptyString.




(** C9.  For a query that is empty or a run of white space, the
    list the search hands to [renderBooksGrid] is the index itself,
    whatever the cache holds, and the grid shows [booksIndex]. *)
Theorem search_blank_query (index : list Meta) (cache : gmap string Book)
  (input : string) :
  whitespace_only input ->
  search toLowerCase index cache input = index
  /\ forall st : State,
       booksGrid (searchInput_input toLowerCase input st) = booksIndex st.
Proof.
  intros Hw.
  assert (E : toLowerCase (Js.trim input) = EmptyString).
  { rewrite (trim_white input Hw). apply lower_empty. reflexivity. }
  split.
  - unfold search. rewrite E. reflexivity.
  - intros st. unfold searchInput_input, search. rewrite E. reflexivity.
Qed.

End SearchProofs.


Lemma search_blank_query_witness :
  search ascii_toLowerCase [genesis_meta; psalms_meta]
    {[ "19" := psalms ]} "   "
  = [genesis_meta; psalms_meta]
  /\ forall st : State,
       booksGrid (searchInput_input ascii_toLowerCase "   " st)
       = booksIndex st.
Proof.
  apply (search_blank_query ascii_toLowerCase ascii_toLowerCase_empty).
  apply (ws_cons [32%N] "  "); [vm_compute; tauto|].
  apply (ws_cons [32%N] " "); [vm_compute; tauto|].
  apply (ws_cons [32%N] ""); [vm_compute; tauto|].
  constructor.
Defined.

Example search_finds_cached_verse :
  search ascii_toLowerCase [genesis_meta; psalms_meta]
    {[ "19" := psalms ]} " SHEPHERD " = [psalms_meta]
  /\ search ascii_toLowerCase [genesis_meta; psalms_meta] ∅ " SHEPHERD " = [].
Proof. split; vm_compute; reflexivity. Qed.

(** ** [escapeHtml] *)

Lemma escape_char_cases (c : ascii) :
  (c = "&"%char /\ escape_char c = "&amp;")
  \/ (c = "<"%char /\ escape_char c = "&lt;")
  \/ (c = ">"%char /\ escape_char c = "&gt;")
  \/ (c = "'"%char /\ escape_char c = "&#39;")
  \/ (c = "034"%char /\ escape_char c = "&quot;")
  \/ (c <> "&"%char /\ c <> "<"%char /\ c <> ">"%char /\ c <> "'"%char
      /\ c <> "034"%char /\ escape_char c = String c EmptyString).
Proof.
  unfold escape_char.
  destruct (Ascii.eqb_spec c "&") as [->|H1]; [tauto|].
  destruct (Ascii.eqb_spec c "<") as [->|H2]; [tauto|].
  destruct (Ascii.eqb_spec c ">") as [->|H3]; [tauto|].
  destruct (Ascii.eqb_spec c "'") as [->|H4]; [tauto|].
  destruct (Ascii.eqb_spec c "034") as [->|H5]; [tauto|].
  repeat right. tauto.
Qed.

Lemma no_char_single (a c : ascii) :
  c <> a -> no_char a (String c EmptyString) = true.
Proof.
  intros H. cbn. destruct (Ascii.eqb_spec c a); [contradiction | reflexivity].
Qed.

(** Escaped text holds no [<], [>], quote or double quote: it cannot
    open or close a tag or an attribute in the page. *)
Theorem escapeHtml_no_markup (s : string) :
  no_char "<" (escapeHtml s) = true
  /\ no_char ">" (escapeHtml s) = true
  /\ no_char "'" (escapeHtml s) = true
  /\ no_char "034" (escapeHtml s) = true.
Proof.
  induction s as [|c r (I1 & I2 & I3 & I4)]; [repeat split; reflexivity|].
  cbn [escapeHtml]. rewrite !no_char_app, I1, I2, I3, I4, !andb_true_r.
  destruct (escape_char_cases c)
    as [[-> ->]|[[-> ->]|[[-> ->]|[[-> ->]|[[-> ->]|(_ & H2 & H3 & H4 & H5 & ->)]]]]];
    try (repeat split; reflexivity).
  repeat split; apply no_char_single; assumption.
Qed.

Lemma escape_char_head (c d : ascii) (x y : string) :
  escape_char c +:+ x = escape_char d +:+ y -> c = d /\ x = y.
Proof.
  destruct (escape_char_cases c)
    as [[-> ->]|[[-> ->]|[[-> ->]|[[-> ->]|[[-> ->]|(C1 & C2 & C3 & C4 & C5 & ->)]]]]];
  destruct (escape_char_cases d)
    as [[-> ->]|[[-> ->]|[[-> ->]|[[-> ->]|[[-> ->]|(D1 & D2 & D3 & D4 & D5 & ->)]]]]];
  simpl; intros H; try discriminate H;
    try (injection H as H; split; [reflexivity | exact H]);
    try (injection H as H _; congruence).
  injection H as H1 H2. split; assumption.
Qed.

(** Escaping loses nothing: two texts with the same escaped form are
    the same text. *)
Theorem escapeHtml_injective (s t : string) :
  escapeHtml s = escapeHtml t -> s = t.
Proof.
  revert t. induction s as [|c r IH]; intros [|d u]; cbn [escapeHtml].
  - reflexivity.
  - intros H. exfalso.
    destruct (escape_char_cases d)
      as [[_ E]|[[_ E]|[[_ E]|[[_ E]|[[_ E]|(_ & _ & _ & _ & _ & E)]]]]];
      rewrite E in H; discriminate H.
  - intros H. exfalso.
    destruct (escape_char_cases c)
      as [[_ E]|[[_ E]|[[_ E]|[[_ E]|[[_ E]|(_ & _ & _ & _ & _ & E)]]]]];
      rewrite E in H; discriminate H.
  - intros H. destruct (escape_char_head c d _ _ H) as [-> Hr].
    f_equal. apply IH, Hr.
Qed.

Lemma escapeHtml_injective_witness : "a<b" +:+ "" = "a<b".
Proof. apply (escapeHtml_injective ("a<b" +:+ "") "a<b"). reflexivity. Defined.

Lemma string_length_app (s t : string) :
  String.length (s +:+ t) = (String.length s + String.length t)%nat.
Proof. induction s as [|c r IH]; simpl; [reflexivity | f_equal; exact IH]. Qed.

Lemma string_app_assoc (s t u : string) : (s +:+ t) +:+ u = s +:+ t +:+ u.
Proof.
  induction s as [|c r IH]; [reflexivity|].
  change (String c ((r +:+ t) +:+ u) = String c (r +:+ t +:+ u)).
  rewrite IH. reflexivity.
Qed.

Lemma escapeHtml_length (s : string) :
  (String.length s <= String.length (escapeHtml s))%nat.
Proof.
  induction s as [|c r IH]; [reflexivity|]. cbn [escapeHtml String.length].
  rewrite string_length_app.
  destruct (escape_char_cases c)
    as [[_ ->]|[[_ ->]|[[_ ->]|[[_ ->]|[[_ ->]|(_ & _ & _ & _ & _ & ->)]]]]];
    cbn; lia.
Qed.

Lemma eqb_neq_false (c a : ascii) : c <> a -> Ascii.eqb c a = false.
Proof. intros H. destruct (Ascii.eqb_spec c a); [contradiction | reflexivity]. Qed.

(** [escapeHtml] returns its argument unchanged exactly when none of
    [&], [<], [>], quote and double quote occurs in it, and it works
    character by character: the escaped form of a concatenation is the
    concatenation of the escaped forms. *)
Theorem escapeHtml_fixes_plain_text (s t : string) :
  (escapeHtml s = s <-> markup_free s = true)
  /\ escapeHtml (s +:+ t) = escapeHtml s +:+ escapeHtml t.
Proof.
  split.
  - unfold markup_free. induction s as [|c r IH]; [split; reflexivity|].
    cbn [escapeHtml no_char].
    destruct (escape_char_cases c)
      as [[-> E]|[[-> E]|[[-> E]|[[-> E]|[[-> E]|(C1 & C2 & C3 & C4 & C5 & E)]]]]];
      rewrite E.
    1-5: split;
      [ simpl; intros H; try discriminate H; injection H as H; exfalso;
        apply (f_equal String.length) in H; simpl in H;
        change ("" +:+ escapeHtml r) with (escapeHtml r) in H;
        pose proof (escapeHtml_length r) as Hl; lia
      | simpl;
        destruct (no_char "&" r), (no_char "<" r), (no_char ">" r),
          (no_char "'" r), (no_char "034" r); discriminate ].
    rewrite !(eqb_neq_false c) by assumption. cbn [negb andb].
    cbn. rewrite <- IH. split; [intros [= H]; exact H | intros ->; reflexivity].
  - induction s as [|c r IH]; [reflexivity|].
    change (String c r +:+ t) with (String c (r +:+ t)). cbn [escapeHtml].
    rewrite IH. symmetry. apply string_app_assoc.
Qed.

(** ** Keys of the cache *)

Lemma Z_toString_inj (a b : Z) : Js.Z_toString a = Js.Z_toString b -> a = b.
Proof.
  intros H. pose proof (Number_Z_toString a) as Ha.
  rewrite H, Number_Z_toString in Ha. injection Ha as ->. reflexivity.
Qed.

Lemma Z_toString_not_null (z : Z) : Js.Z_toString z <> "null".
Proof.
  intros H. pose proof (plain_Z_toString z) as Hp. rewrite H in Hp.
  discriminate Hp.
Qed.

Lemma Z_toString_not_NaN (z : Z) : Js.Z_toString z <> "NaN".
Proof.
  intros H. pose proof (plain_Z_toString z) as Hp. rewrite H in Hp.
  discriminate Hp.
Qed.

Lemma openChapter_uncached (b n : Js.num) (st : State) :
  bookCache st !! Js.toString b = None -> openChapter b n st = st.
Proof. intros H. unfold openChapter. rewrite H. reflexivity. Qed.

Lemma openBook_show_uncached (book : Book) (o : Options) (st : State) :
  bookCache st !! Js.Z_toString (book_id book) = None ->
  openBook_show book o st = renderChaptersView book st.
Proof.
  intros H. unfold openBook_show.
  rewrite !openChapter_caught_uncached by (fields; exact H).
  destruct (Js.truthy (opt_chapter o)), (opt_showChaptersOnly o); reflexivity.
Qed.

Lemma find_meta_NaN (index : list Meta) : find_meta Js.NaN index = None.
Proof. unfold find_meta. induction index as [|m l IH]; [reflexivity | exact IH]. Qed.

Lemma openBook_request_value (v : Js.value) (id : Z) (options : Options)
  (meta : Meta) (st : State) :
  Js.Number v = Js.Int id ->
  bookCache st !! Js.Z_toString id = None ->
  find_meta (Js.Int id) (booksIndex st) = Some meta ->
  openBook v options st
  = Await (fetch (meta_file meta)
             (set_backBtn_hidden false
                (setTitle "Loading..."
                   (set_currentBookId (Some (Js.Int id)) st))))
      {| pending_path := meta_file meta; pending_options := options |}.
Proof.
  intros Hv H Hm. unfold openBook. rewrite Hv. fields. rewrite H, Hm.
  reflexivity.
Qed.

(** The page [loadInitial] starts from. *)
Lemma loadInitial_link (index : list Meta) (hash : string)
  (h : gmap string string) (v : string) :
  parseHash hash = inr h ->
  h !! "book" = Some v ->
  Js.truthy (Js.VStr v) = true ->
  loadInitial index hash
  = match
      openBook (Js.VStr v)
        {| opt_chapter := read h "chapter"; opt_showChaptersOnly := false |}
        {| booksIndex := index; bookCache := ∅;
           currentBookId := None; currentChapter := None;
           title := EmptyString; backBtn_hidden := true;
           main_className := BooksPage; main_content := Untouched;
           booksGrid := index; location_hash := hash;
           history := []; alerts := []; fetches := [] |}
    with
    | Done st' => inr (Done (showBooks st'))
    | Await st' k => inr (Await (showBooks st') k)
    end.
Proof.
  intros Hp Hb Ht. unfold loadInitial, handleDeepLink. cbn [location_hash].
  rewrite Hp. unfold read at 1 2. rewrite Hb, Ht. reflexivity.
Qed.

(** ** A deep link on a fresh page *)

(** On a fresh page whose fragment links to a book of the index (with
    or without a chapter), [loadInitial] issues the request for the
    book and shows the library before the request settles.  When the
    book arrives it is stored under the key of [null], not under its
    id; the chapter list is shown with the back button hidden,
    [currentBookId] and [currentChapter] stay null, no verses are
    shown, the fragment is left as it was, and a tap on any chapter
    button then does nothing. *)
Theorem deep_link_on_load (index : list Meta) (id n : Z) (meta : Meta)
  (book : Book) (hash : string) :
  find_meta (Js.Int id) index = Some meta ->
  hash = "#book=" +:+ Js.Z_toString id +:+ "&chapter=" +:+ Js.Z_toString n
  \/ hash = "#book=" +:+ Js.Z_toString id ->
  exists (st : State) (k : Pending),
    loadInitial index hash = inr (Await st k)
    /\ fetches st = [meta_file meta]
    /\ at_library st
    /\ bookCache (openBook_resume k (Json book) st) = {[ "null" := Shaped book ]}
    /\ main_className (openBook_resume k (Json book) st) = ChaptersPage
    /\ main_content (openBook_resume k (Json book) st) = ChaptersView book
    /\ currentBookId (openBook_resume k (Json book) st) = None
    /\ currentChapter (openBook_resume k (Json book) st) = None
    /\ backBtn_hidden (openBook_resume k (Json book) st) = true
    /\ location_hash (openBook_resume k (Json book) st) = hash
    /\ forall c : Chapter,
         chapter_btn_click book c (openBook_resume k (Json book) st)
         = openBook_resume k (Json book) st.
Proof.
  intros Hm Hh.
  assert (Hp : exists h : gmap string string,
             parseHash hash = inr h
             /\ h !! "book" = Some (Js.Z_toString id)).
  { destruct Hh as [-> | ->].
    - eexists. split.
      + apply (parseHash_book_chapter _ _ (plain_Z_toString id) (plain_Z_toString n)).
      + rewrite lookup_insert_ne by discriminate. apply lookup_singleton_eq.
    - eexists. split.
      + apply (parseHash_book _ (plain_Z_toString id)).
      + apply lookup_singleton_eq. }
  destruct Hp as (h & Hp & Hb).
  rewrite (loadInitial_link index hash h (Js.Z_toString id) Hp Hb
             (truthy_Z_toString id)).
  rewrite (openBook_request_value (Js.VStr (Js.Z_toString id)) id _ meta _
             (Number_Z_toString id));
    [|apply lookup_empty | exact Hm].
  do 2 eexists. split; [reflexivity|].
  split; [reflexivity|]. split; [repeat split; reflexivity|].
  cbn [openBook_resume]. fields. rewrite insert_empty.
  rewrite openBook_show_uncached.
  2:{ fields. apply lookup_singleton_ne. intros E. symmetry in E.
      exact (Z_toString_not_null _ E). }
  fields. repeat split; try reflexivity.
  intros c. unfold chapter_btn_click. apply openChapter_uncached. fields.
  cbn [Js.toString]. apply lookup_singleton_ne. intros E. symmetry in E.
  exact (Z_toString_not_null _ E).
Qed.

Lemma deep_link_on_load_witness :
  exists (st : State) (k : Pending),
    loadInitial [genesis_meta] "#book=1&chapter=1" = inr (Await st k)
    /\ fetches st = ["g.json"]
    /\ at_library st
    /\ bookCache (openBook_resume k (Json genesis) st) = {[ "null" := Shaped genesis ]}
    /\ main_className (openBook_resume k (Json genesis) st) = ChaptersPage
    /\ main_content (openBook_resume k (Json genesis) st) = ChaptersView genesis
    /\ currentBookId (openBook_resume k (Json genesis) st) = None
    /\ currentChapter (openBook_resume k (Json genesis) st) = None
    /\ backBtn_hidden (openBook_resume k (Json genesis) st) = true
    /\ location_hash (openBook_resume k (Json genesis) st) = "#book=1&chapter=1"
    /\ forall c : Chapter,
         chapter_btn_click genesis c (openBook_resume k (Json genesis) st)
         = openBook_resume k (Json genesis) st.
Proof.
  apply (deep_link_on_load [genesis_meta] 1 1 genesis_meta genesis
           "#book=1&chapter=1"); [reflexivity | left; reflexivity].
Defined.





(** ** Requests that overlap *)

Lemma openBook_resume_keeps (k : Pending) (book : Book) (st : State) :
  bookCache (openBook_resume k (Json book) st)
  = <[property_key (currentBookId st) := Shaped book]> (bookCache st)
  /\ ((forall name complaint,
         <[property_key (currentBookId st) := Shaped book]> (bookCache st)
         !! Js.Z_toString (book_id book) <> Some (Misshapen name complaint)) ->
      currentBookId (openBook_resume k (Json book) st) = currentBookId st).
Proof.
  cbn [openBook_resume]. split.
  - match goal with
    | |- context [openBook_show ?bk ?o ?s] =>
        destruct (openBook_show_keeps bk o s) as (-> & _)
    end.
    reflexivity.
  - intros H.
    match goal with
    | |- context [openBook_show ?bk ?o ?s] =>
        destruct (openBook_show_quiet bk o s H) as (-> & _)
    end.
    reflexivity.
Qed.

Lemma openBook_resume_uncached (k : Pending) (book : Book) (st : State) :
  <[property_key (currentBookId st) := Shaped book]> (bookCache st)
  !! Js.Z_toString (book_id book) = None ->
  openBook_resume k (Json book) st
  = renderChaptersView book
      (set_bookCache
         (<[property_key (currentBookId st) := Shaped book]> (bookCache st)) st).
Proof.
  intros H. cbn [openBook_resume]. apply openBook_show_uncached. exact H.
Qed.

Lemma misfile_core (s2 : State) (a b : Z) (k1 k2 : Pending)
  (bookA bookB : Book) :
  a <> b ->
  currentBookId s2 = Some (Js.Int b) ->
  bookCache s2 !! Js.Z_toString a = None ->
  book_id bookA = a ->
  (forall (name : string) (complaint : string -> string),
     bookCache s2 !! Js.Z_toString (book_id bookB)
     <> Some (Misshapen name complaint)) ->
  bookCache
    (openBook_resume k1 (Json bookA) (openBook_resume k2 (Json bookB) s2))
  !! Js.Z_toString b = Some (Shaped bookA)
  /\ bookCache
       (openBook_resume k1 (Json bookA) (openBook_resume k2 (Json bookB) s2))
     !! Js.Z_toString a = None
  /\ main_content
       (openBook_resume k1 (Json bookA) (openBook_resume k2 (Json bookB) s2))
     = ChaptersView bookA
  /\ main_className
       (openBook_resume k1 (Json bookA) (openBook_resume k2 (Json bookB) s2))
     = ChaptersPage
  /\ currentBookId
       (openBook_resume k1 (Json bookA) (openBook_resume k2 (Json bookB) s2))
     = Some (Js.Int b).
Proof.
  intros Hab Hc Ha Hid Hidb.
  assert (Hk : Js.Z_toString b <> Js.Z_toString a).
  { intros E. apply Hab. symmetry. apply Z_toString_inj, E. }
  destruct (openBook_resume_keeps k2 bookB s2) as (Hb3 & Hc3).
  rewrite Hc in Hb3, Hc3. cbn [property_key Js.toString] in Hb3, Hc3.
  assert (Hq : forall (name : string) (complaint : string -> string),
             <[Js.Z_toString b := Shaped bookB]> (bookCache s2)
             !! Js.Z_toString (book_id bookB)
             <> Some (Misshapen name complaint)).
  { intros name complaint.
    destruct (decide (Js.Z_toString b = Js.Z_toString (book_id bookB))) as [E|E].
    - rewrite <- E, lookup_insert_eq. discriminate.
    - rewrite lookup_insert_ne by exact E. apply Hidb. }
  specialize (Hc3 Hq). clear Hq.
  remember (openBook_resume k2 (Json bookB) s2) as s3 eqn:E3. clear E3.
  rewrite (openBook_resume_uncached k1 bookA s3).
  - cbn [renderChaptersView set_main_content setTitle set_main_className
         set_bookCache bookCache main_content main_className currentBookId].
    rewrite Hc3, Hb3. cbn [property_key Js.toString].
    rewrite insert_insert_eq, lookup_insert_eq, lookup_insert_ne by exact Hk.
    repeat split. exact Ha.
  - rewrite Hc3, Hb3, Hid. cbn [property_key Js.toString].
    rewrite insert_insert_eq, lookup_insert_ne by exact Hk. exact Ha.
Qed.

(** Two books [a] and [b], neither cached, tapped one after the other
    before either file arrives, the key of the id that [b]'s file
    carries not holding an object that is no book: when [b]'s file
    arrives first and [a]'s second, the content of [a] is stored under
    the key of [b] (the key is [currentBookId] at arrival), nothing is
    stored under the key of [a], and the page shows the chapter list
    of [a] while [currentBookId] is [b]. *)
Theorem overlapping_requests_misfile (st : State) (a b : Z) (ma mb : Meta)
  (bookA bookB : Book) (oa ob : Options) :
  a <> b ->
  bookCache st !! Js.Z_toString a = None ->
  bookCache st !! Js.Z_toString b = None ->
  find_meta (Js.Int a) (booksIndex st) = Some ma ->
  find_meta (Js.Int b) (booksIndex st) = Some mb ->
  book_id bookA = a ->
  (forall (name : string) (complaint : string -> string),
     bookCache st !! Js.Z_toString (book_id bookB)
     <> Some (Misshapen name complaint)) ->
  exists (s1 s2 : State) (k1 k2 : Pending),
    openBook (Js.VNum (Js.Int a)) oa st = Await s1 k1
    /\ openBook (Js.VNum (Js.Int b)) ob s1 = Await s2 k2
    /\ bookCache
         (openBook_resume k1 (Json bookA) (openBook_resume k2 (Json bookB) s2))
       !! Js.Z_toString b = Some (Shaped bookA)
    /\ bookCache
         (openBook_resume k1 (Json bookA) (openBook_resume k2 (Json bookB) s2))
       !! Js.Z_toString a = None
    /\ main_content
         (openBook_resume k1 (Json bookA) (openBook_resume k2 (Json bookB) s2))
       = ChaptersView bookA
    /\ main_className
         (openBook_resume k1 (Json bookA) (openBook_resume k2 (Json bookB) s2))
       = ChaptersPage
    /\ currentBookId
         (openBook_resume k1 (Json bookA) (openBook_resume k2 (Json bookB) s2))
       = Some (Js.Int b).
Proof.
  intros Hab Ha Hb Hma Hmb Hid Hidb.
  rewrite (openBook_request a oa ma st Ha Hma).
  do 4 eexists. split; [reflexivity|].
  split; [apply (openBook_request b ob mb _); assumption|].
  apply (misfile_core _ a b);
    [exact Hab | reflexivity | exact Ha | exact Hid | exact Hidb].
Qed.

Lemma overlapping_requests_misfile_witness :
  exists (s1 s2 : State) (k1 k2 : Pending),
    openBook (Js.VNum (Js.Int 1)) no_options (start [genesis_meta; psalms_meta])
    = Await s1 k1
    /\ openBook (Js.VNum (Js.Int 19)) no_options s1 = Await s2 k2
    /\ bookCache
         (openBook_resume k1 (Json genesis) (openBook_resume k2 (Json psalms) s2))
       !! Js.Z_toString 19 = Some (Shaped genesis)
    /\ bookCache
         (openBook_resume k1 (Json genesis) (openBook_resume k2 (Json psalms) s2))
       !! Js.Z_toString 1 = None
    /\ main_content
         (openBook_resume k1 (Json genesis) (openBook_resume k2 (Json psalms) s2))
       = ChaptersView genesis
    /\ main_className
         (openBook_resume k1 (Json genesis) (openBook_resume k2 (Json psalms) s2))
       = ChaptersPage
    /\ currentBookId
         (openBook_resume k1 (Json genesis) (openBook_resume k2 (Json psalms) s2))
       = Some (Js.Int 19).
Proof.
  apply (overlapping_requests_misfile (start [genesis_meta; psalms_meta]) 1 19
           genesis_meta psalms_meta genesis psalms no_options no_options);
    (reflexivity || discriminate).
Defined.

(** A tap whose request settles before anything else happens keeps
    the cache keyed by the books' own ids, when the file that arrives
    carries the id it was requested under: whatever the options and
    whether the book was cached, missing from the index, failed to
    load or loaded. *)
Theorem cache_stays_keyed_by_id (st : State) (id : Z) (o : Options)
  (r : response) :
  cache_ok (bookCache st) ->
  (forall book : Book, r = Json book -> book_id book = id) ->
  cache_ok (bookCache (settle (openBook (Js.VNum (Js.Int id)) o st) r)).
Proof.
  intros Hok Hr. unfold openBook. fields.
  destruct (bookCache st !! Js.Z_toString id) as [[book|name complaint]|] eqn:Ec.
  - cbn [settle].
    match goal with
    | |- context [openBook_show ?bk ?op ?s] =>
        destruct (openBook_show_keeps bk op s) as (-> & _)
    end.
    exact Hok.
  - exact Hok.
  - destruct (find_meta (Js.Int id) (booksIndex st)) as [meta|];
      [|exact Hok].
    cbn [settle]. destruct r as [message|book|name complaint]; [exact Hok| |].
    + cbn [openBook_resume].
      match goal with
      | |- context [openBook_show ?bk ?op ?s] =>
          destruct (openBook_show_keeps bk op s) as (-> & _)
      end.
      fields. intros k bk. rewrite lookup_insert. case_decide as E.
      * intros [= <-]. rewrite (Hr book eq_refl). symmetry. exact E.
      * apply Hok.
    + cbn [openBook_resume]. fields. intros k bk. rewrite lookup_insert.
      case_decide as E; [intros [=] | apply Hok].
Qed.

Lemma cache_stays_keyed_by_id_witness :
  cache_ok
    (bookCache
       (settle (openBook (Js.VNum (Js.Int 1)) no_options (start [genesis_meta]))
          (Json genesis))).
Proof.
  apply (cache_stays_keyed_by_id (start [genesis_meta]) 1 no_options
           (Json genesis)).
  - intros k bk Hk. cbn [start bookCache] in Hk. rewrite lookup_empty in Hk.
    discriminate Hk.
  - intros book [= <-]. reflexivity.
Defined.

(** ** Chapters *)

Lemma find_chapter_unique (l : list Chapter) (c : Chapter) :
  NoDup (map ch_number l) ->
  In c l ->
  List.find (fun c' => Js.strict_eq (Js.Int (ch_number c')) (Js.Int (ch_number c))) l
  = Some c.
Proof.
  induction l as [|d l IH]; intros Hn Hin; [destruct Hin|].
  cbn [map] in Hn. apply NoDup_cons in Hn as [Hd Hn].
  cbn [List.find Js.strict_eq]. destruct Hin as [->|Hin].
  - rewrite Z.eqb_refl. reflexivity.
  - destruct (Z.eqb_spec (ch_number d) (ch_number c)) as [E|_].
    + exfalso. apply Hd. rewrite E. apply list_elem_of_In, in_map, Hin.
    + apply IH; assumption.
Qed.

(** A tap on the button of a chapter of the displayed book, the book
    being cached under its id and its chapter numbers distinct, shows
    the verses of that very chapter, sets [currentChapter] to its
    number, leaves [currentBookId] alone and writes the fragment of
    the book and the chapter. *)
Theorem chapter_btn_click_shows_chapter (st : State) (book : Book)
  (c : Chapter) :
  bookCache st !! Js.Z_toString (book_id book) = Some (Shaped book) ->
  In c (book_chapters book) ->
  NoDup (map ch_number (book_chapters book)) ->
  main_className (chapter_btn_click book c st) = VersesPage
  /\ main_content (chapter_btn_click book c st) = VersesView c
  /\ currentChapter (chapter_btn_click book c st) = Some (Js.Int (ch_number c))
  /\ currentBookId (chapter_btn_click book c st) = currentBookId st
  /\ location_hash (chapter_btn_click book c st)
     = fragment_of_state (VerseList (book_id book) (ch_number c)).
Proof.
  intros Hc Hin Hn. unfold chapter_btn_click.
  rewrite (openChapter_found _ _ book c st Hc).
  - repeat split; reflexivity.
  - apply find_chapter_unique; assumption.
Qed.

Lemma chapter_btn_click_shows_chapter_witness :
  main_className
    (chapter_btn_click psalms psalm1
       (set_bookCache {[ "19" := Shaped psalms ]} genesis_linked)) = VersesPage
  /\ main_content
       (chapter_btn_click psalms psalm1
          (set_bookCache {[ "19" := Shaped psalms ]} genesis_linked))
     = VersesView psalm1
  /\ currentChapter
       (chapter_btn_click psalms psalm1
          (set_bookCache {[ "19" := Shaped psalms ]} genesis_linked))
     = Some (Js.Int 1)
  /\ currentBookId
       (chapter_btn_click psalms psalm1
          (set_bookCache {[ "19" := Shaped psalms ]} genesis_linked))
     = None
  /\ location_hash
       (chapter_btn_click psalms psalm1
          (set_bookCache {[ "19" := Shaped psalms ]} genesis_linked))
     = fragment_of_state (VerseList 19 1).
Proof.
  apply (chapter_btn_click_shows_chapter
           (set_bookCache {[ "19" := Shaped psalms ]} genesis_linked) psalms psalm1).
  - reflexivity.
  - right. left. reflexivity.
  - cbn [map psalms book_chapters psalm23 psalm1 ch_number].
    constructor;
      [intros H; apply list_elem_of_In in H; destruct H as [H|[]];
       discriminate H|].
    constructor; [intros H; apply list_elem_of_In in H; destruct H|].
    constructor.
Defined.

(** ** The back button *)

Lemma backBtn_click_stuck (st : State) (b : Z) (n : Js.num) (book : Book) :
  currentBookId st = Some (Js.Int b) ->
  currentChapter st = Some n ->
  bookCache st !! Js.Z_toString b = Some (Shaped book) ->
  currentBookId (state_of (backBtn_click st)) = Some (Js.Int b)
  /\ currentChapter (state_of (backBtn_click st)) = Some n
  /\ bookCache (state_of (backBtn_click st)) = bookCache st
  /\ main_className (state_of (backBtn_click st)) = ChaptersPage
  /\ location_hash (state_of (backBtn_click st)) = location_hash st.
Proof.
  intros Hb Hn Hc. unfold backBtn_click. rewrite Hn, Hb. cbn [value_of].
  rewrite (openBook_cached b _ book st Hc). cbn [state_of].
  unfold openBook_show. cbn [opt_chapter opt_showChaptersOnly Js.truthy].
  cbv iota. fields. repeat split; assumption.
Qed.

(** Once a chapter has been opened, the back button never leads to
    the library while the book stays cached: after any number of
    clicks, one or more, the page is the chapter list, with
    [currentChapter] still set and the fragment unchanged. *)
Theorem back_never_reaches_library (k : nat) (st : State) (b : Z)
  (n : Js.num) (book : Book) :
  currentBookId st = Some (Js.Int b) ->
  currentChapter st = Some n ->
  bookCache st !! Js.Z_toString b = Some (Shaped book) ->
  main_className (back_times (S k) st) = ChaptersPage
  /\ currentChapter (back_times (S k) st) = Some n
  /\ currentBookId (back_times (S k) st) = Some (Js.Int b)
  /\ location_hash (back_times (S k) st) = location_hash st.
Proof.
  revert st. induction k as [|k IH]; intros st Hb Hn Hc;
    destruct (backBtn_click_stuck st b n book Hb Hn Hc)
      as (Hb' & Hn' & Hc' & Hp & Hh).
  - cbn [back_times]. repeat split; assumption.
  - change (back_times (S (S k)) st)
      with (back_times (S k) (state_of (backBtn_click st))).
    rewrite <- Hc' in Hc.
    destruct (IH _ Hb' Hn' Hc) as (H1 & H2 & H3 & H4).
    rewrite H4, Hh. repeat split; assumption.
Qed.

Lemma back_never_reaches_library_witness :
  main_className (back_times 3 genesis_open) = ChaptersPage
  /\ currentChapter (back_times 3 genesis_open) = Some (Js.Int 1)
  /\ currentBookId (back_times 3 genesis_open) = Some (Js.Int 1)
  /\ location_hash (back_times 3 genesis_open) = location_hash genesis_open.
Proof.
  apply (back_never_reaches_library 2 genesis_open 1 (Js.Int 1) genesis);
    vm_compute; reflexivity.
Defined.

(** ** Links *)

Lemma handleDeepLink_book (st : State) (h : gmap string string) (v : string) :
  parseHash (location_hash st) = inr h ->
  h !! "book" = Some v ->
  Js.truthy (Js.VStr v) = true ->
  handleDeepLink st
  = inr (openBook (Js.VStr v)
           {| opt_chapter := read h "chapter"; opt_showChaptersOnly := false |}
           st).
Proof.
  intros Hp Hb Ht. unfold handleDeepLink. rewrite Hp. unfold read at 1 2.
  rewrite Hb, Ht. reflexivity.
Qed.

(** A fragment that says [book] without a value: [parseHash] stores
    the text of [undefined], [Number] makes [NaN] of it, no entry of
    the index equals [NaN], and the user gets the alert of a book that
    was not found; the page is the library, nothing is requested and
    the cache is untouched. *)
Theorem deep_link_without_value (st : State) :
  location_hash st = "#book" ->
  bookCache st !! "NaN" = None ->
  exists st' : State,
    handleDeepLink st = inr (Done st')
    /\ at_library st'
    /\ alerts st'
       = (alerts st ++ ["Failed to open book: Book meta not found"])%list
    /\ bookCache st' = bookCache st
    /\ fetches st' = fetches st.
Proof.
  intros Hh Hc.
  rewrite (handleDeepLink_book st {[ "book" := "undefined" ]} "undefined").
  - unfold openBook. fields.
    change (Js.StringToNumber "undefined") with Js.NaN. cbn [Js.toString].
    rewrite Hc, find_meta_NaN. eexists. split; [reflexivity|].
    repeat split; reflexivity.
  - rewrite Hh. vm_compute. reflexivity.
  - apply lookup_singleton_eq.
  - reflexivity.
Qed.

Lemma deep_link_without_value_witness :
  exists st' : State,
    handleDeepLink (replaceState "#book" (start [genesis_meta])) = inr (Done st')
    /\ at_library st'
    /\ alerts st' = ["Failed to open book: Book meta not found"]
    /\ bookCache st' = ∅
    /\ fetches st' = [].
Proof.
  apply (deep_link_without_value (replaceState "#book" (start [genesis_meta])));
    reflexivity.
Defined.

(** ** What a handler does to the URL *)

Lemma url_only_refl (st st' : State) :
  history st' = history st -> location_hash st' = location_hash st ->
  url_only_for_verses st st'.
Proof. intros H1 H2. left. split; assumption. Qed.

Lemma url_only_openChapter (b n : Js.num) (st0 st : State) :
  history st = history st0 -> location_hash st = location_hash st0 ->
  url_only_for_verses st0 (openChapter b n st).
Proof.
  intros H1 H2. unfold openChapter.
  destruct (bookCache st !! Js.toString b) as [[book|name complaint]|];
    [|left; split; assumption|left; split; assumption].
  destruct (find_chapter n book) as [c|].
  - right. eexists _, c. fields. rewrite H1. repeat split; reflexivity.
  - left. split; assumption.
Qed.

Lemma url_only_openChapter_caught (b n : Js.num) (st0 st : State) :
  history st = history st0 -> location_hash st = location_hash st0 ->
  url_only_for_verses st0 (openChapter_caught b n st).
Proof.
  intros H1 H2. unfold openChapter_caught, openChapter_thrown.
  destruct (bookCache st !! Js.toString b) as [[book|name complaint]|] eqn:E;
    try (apply url_only_openChapter; assumption).
  left. unfold openChapter. rewrite E. split; assumption.
Qed.

Lemma url_only_openBook_show (book : Book) (o : Options) (st0 st : State) :
  history st = history st0 -> location_hash st = location_hash st0 ->
  url_only_for_verses st0 (openBook_show book o st).
Proof.
  intros H1 H2. unfold openBook_show.
  destruct (Js.truthy (opt_chapter o)); [|destruct (opt_showChaptersOnly o)];
    try (apply url_only_openChapter_caught; assumption).
  left. split; assumption.
Qed.

(** No handler writes the URL except to record the verses it has just
    shown: after [openChapter], [openBook] (up to its request or its
    end), the arrival of a book file or its failure, a click on the
    back button, or a search, either the fragment and the history are
    what they were, or one URL was written and the page shows verses.
    The back button and the search never write it. *)
Theorem url_written_only_for_verses (st : State) :
  (forall b n : Js.num, url_only_for_verses st (openChapter b n st))
  /\ (forall (v : Js.value) (o : Options),
        url_only_for_verses st (state_of (openBook v o st)))
  /\ (forall (k : Pending) (r : response),
        url_only_for_verses st (openBook_resume k r st))
  /\ (history (state_of (backBtn_click st)) = history st
      /\ location_hash (state_of (backBtn_click st)) = location_hash st)
  /\ (forall (toLowerCase : string -> string) (input : string),
        history (searchInput_input toLowerCase input st) = history st
        /\ location_hash (searchInput_input toLowerCase input st)
           = location_hash st).
Proof.
  split; [|split; [|split; [|split]]].
  - intros b n. apply url_only_openChapter; reflexivity.
  - intros v o. unfold openBook. fields.
    destruct (bookCache st !! Js.toString (Js.Number v))
      as [[book|name complaint]|].
    + cbn [state_of]. apply url_only_openBook_show; reflexivity.
    + left. split; reflexivity.
    + destruct (find_meta (Js.Number v) (booksIndex st));
        left; split; reflexivity.
  - intros k [message|book|name complaint]; cbn [openBook_resume].
    + left. split; reflexivity.
    + apply url_only_openBook_show; reflexivity.
    + left. split; reflexivity.
  - unfold backBtn_click. destruct (currentChapter st); [|split; reflexivity].
    unfold openBook. fields.
    destruct (bookCache st !! Js.toString (Js.Number (value_of (currentBookId st))))
      as [[book|name complaint]|].
    + cbn [state_of]. unfold openBook_show.
      cbn [opt_chapter opt_showChaptersOnly Js.truthy]. cbv iota.
      split; reflexivity.
    + split; reflexivity.
    + destruct (find_meta (Js.Number (value_of (currentBookId st))) (booksIndex st));
        split; reflexivity.
  - intros toLowerCase input. unfold searchInput_input.
    destruct (negb _ && existsb _ _); split; reflexivity.
Qed.

(** ** Books with odd content *)

(** A book file with no chapters: [openBook] asks for chapter 1, which
    is not there; the page shows "Chapter not found." on the verses
    page with [currentChapter] 1, the book is cached, and the URL is
    not written. *)
Theorem openBook_empty_book (st : State) (id : Z) (meta : Meta) (book : Book) :
  bookCache st !! Js.Z_toString id = None ->
  find_meta (Js.Int id) (booksIndex st) = Some meta ->
  book_id book = id ->
  book_chapters book = [] ->
  main_className
    (settle (openBook (Js.VNum (Js.Int id)) no_options st) (Json book))
  = VersesPage
  /\ main_content
       (settle (openBook (Js.VNum (Js.Int id)) no_options st) (Json book))
     = ChapterNotFound
  /\ currentChapter
       (settle (openBook (Js.VNum (Js.Int id)) no_options st) (Json book))
     = Some (Js.Int 1)
  /\ bookCache
       (settle (openBook (Js.VNum (Js.Int id)) no_options st) (Json book))
     = <[Js.Z_toString id := Shaped book]> (bookCache st)
  /\ location_hash
       (settle (openBook (Js.VNum (Js.Int id)) no_options st) (Json book))
     = location_hash st.
Proof.
  intros Hmiss Hmeta Hid Hch.
  rewrite (openBook_request id no_options meta st Hmiss Hmeta).
  cbn [settle openBook_resume pending_options]. fields.
  unfold openBook_show. cbn [no_options opt_chapter opt_showChaptersOnly
    Js.truthy]. cbv iota. unfold first_number. rewrite Hch, Hid.
  rewrite (openChapter_caught_shaped id (Js.Int 1) book)
    by (fields; apply lookup_insert_eq).
  rewrite (openChapter_missing id (Js.Int 1) book).
  - repeat split; reflexivity.
  - fields. apply lookup_insert_eq.
  - unfold find_chapter. rewrite Hch. reflexivity.
Qed.

Lemma openBook_empty_book_witness :
  main_className
    (settle (openBook (Js.VNum (Js.Int 1)) no_options (start [genesis_meta]))
       (Json {| book_id := 1; book_name := "Genesis"; book_chapters := [] |}))
  = VersesPage
  /\ main_content
       (settle (openBook (Js.VNum (Js.Int 1)) no_options (start [genesis_meta]))
          (Json {| book_id := 1; book_name := "Genesis"; book_chapters := [] |}))
     = ChapterNotFound
  /\ currentChapter
       (settle (openBook (Js.VNum (Js.Int 1)) no_options (start [genesis_meta]))
          (Json {| book_id := 1; book_name := "Genesis"; book_chapters := [] |}))
     = Some (Js.Int 1)
  /\ bookCache
       (settle (openBook (Js.VNum (Js.Int 1)) no_options (start [genesis_meta]))
          (Json {| book_id := 1; book_name := "Genesis"; book_chapters := [] |}))
     = <[Js.Z_toString 1 :=
           Shaped
             {| book_id := 1; book_name := "Genesis"; book_chapters := [] |}]>
         (bookCache (start [genesis_meta]))
  /\ location_hash
       (settle (openBook (Js.VNum (Js.Int 1)) no_options (start [genesis_meta]))
          (Json {| book_id := 1; book_name := "Genesis"; book_chapters := [] |}))
     = location_hash (start [genesis_meta]).
Proof.
  apply (openBook_empty_book (start [genesis_meta]) 1 genesis_meta);
    reflexivity.
Defined.

(** A book file whose id is not the id it was requested under, and not
    the id of a cached book: the file is cached under the requested
    id, the chapter list is shown, and no chapter is opened:
    [currentChapter] and the URL stay what they were. *)
Theorem openBook_id_mismatch (st : State) (id : Z) (meta : Meta) (book : Book)
  (o : Options) :
  bookCache st !! Js.Z_toString id = None ->
  find_meta (Js.Int id) (booksIndex st) = Some meta ->
  book_id book <> id ->
  bookCache st !! Js.Z_toString (book_id book) = None ->
  main_className (settle (openBook (Js.VNum (Js.Int id)) o st) (Json book))
  = ChaptersPage
  /\ main_content (settle (openBook (Js.VNum (Js.Int id)) o st) (Json book))
     = ChaptersView book
  /\ currentChapter (settle (openBook (Js.VNum (Js.Int id)) o st) (Json book))
     = currentChapter st
  /\ bookCache (settle (openBook (Js.VNum (Js.Int id)) o st) (Json book))
     = <[Js.Z_toString id := Shaped book]> (bookCache st)
  /\ location_hash (settle (openBook (Js.VNum (Js.Int id)) o st) (Json book))
     = location_hash st.
Proof.
  intros Hmiss Hmeta Hne Hb.
  rewrite (openBook_request id o meta st Hmiss Hmeta). cbn [settle].
  rewrite openBook_resume_uncached.
  - repeat split; reflexivity.
  - fields. rewrite lookup_insert_ne; [exact Hb|].
    intros E. apply Hne. symmetry. apply Z_toString_inj, E.
Qed.

Lemma openBook_id_mismatch_witness :
  main_className
    (settle (openBook (Js.VNum (Js.Int 1)) no_options (start [genesis_meta]))
       (Json psalms)) = ChaptersPage
  /\ main_content
       (settle (openBook (Js.VNum (Js.Int 1)) no_options (start [genesis_meta]))
          (Json psalms)) = ChaptersView psalms
  /\ currentChapter
       (settle (openBook (Js.VNum (Js.Int 1)) no_options (start [genesis_meta]))
          (Json psalms)) = currentChapter (start [genesis_meta])
  /\ bookCache
       (settle (openBook (Js.VNum (Js.Int 1)) no_options (start [genesis_meta]))
          (Json psalms))
     = <[Js.Z_toString 1 := Shaped psalms]> (bookCache (start [genesis_meta]))
  /\ location_hash
       (settle (openBook (Js.VNum (Js.Int 1)) no_options (start [genesis_meta]))
          (Json psalms)) = location_hash (start [genesis_meta]).
Proof.
  apply (openBook_id_mismatch (start [genesis_meta]) 1 genesis_meta psalms
           no_options); (reflexivity || discriminate).
Defined.



(** ** More of the search *)




(** ** One more pair *)

Lemma split_nonempty (sep : ascii) (s : string) : Js.split sep s <> [].
Proof.
  destruct s as [|c r]; cbn [Js.split]; [discriminate|].
  destruct (Ascii.eqb c sep); [discriminate|].
  destruct (Js.split sep r); discriminate.
Qed.

Lemma split_snoc (sep : ascii) (s t : string) :
  no_char sep t = true ->
  Js.split sep (s +:+ String sep t) = (Js.split sep s ++ [t])%list.
Proof.
  intros Ht. induction s as [|c r IH].
  - change (EmptyString +:+ String sep t) with (String sep t).
    cbn [Js.split]. rewrite Ascii.eqb_refl, (split_no_char sep t Ht).
    reflexivity.
  - change (String c r +:+ String sep t) with (String c (r +:+ String sep t)).
    cbn [Js.split]. rewrite IH. destruct (Ascii.eqb c sep); [reflexivity|].
    pose proof (split_nonempty sep r) as Hne.
    destruct (Js.split sep r) as [|x l]; [contradiction | reflexivity].
Qed.

Lemma forEach_pairs_app (l1 l2 : list (list string))
  (acc : gmap string string) :
  forEach_pairs (l1 ++ l2) acc
  = match forEach_pairs l1 acc with
    | inl e => inl e
    | inr h => forEach_pairs l2 h
    end.
Proof.
  revert acc. induction l1 as [|p l IH]; intros acc; [reflexivity|].
  cbn [app forEach_pairs]. destruct (parse_pair p acc); [reflexivity | apply IH].
Qed.

Lemma parseHash_forEach (frag : string) :
  parseHash frag = forEach_pairs (pairs_of frag) ∅.
Proof.
  unfold parseHash, pairs_of. destruct (strip_hash frag); reflexivity.
Qed.

Lemma strip_hash_app (frag kv : string) :
  strip_hash (frag +:+ String "&" kv) = strip_hash frag +:+ String "&" kv.
Proof.
  destruct frag as [|c r]; [reflexivity|].
  change (String c r +:+ String "&" kv) with (String c (r +:+ String "&" kv)).
  cbn [strip_hash]. destruct (Ascii.eqb c "#"); reflexivity.
Qed.

Lemma parseHash_snoc (frag kv : string) :
  no_char "&" kv = true ->
  parseHash (frag +:+ String "&" kv)
  = match parseHash frag with
    | inl e => inl e
    | inr h => parse_pair (Js.split "=" kv) h
    end.
Proof.
  intros Hkv. rewrite !parseHash_forEach. unfold pairs_of.
  rewrite strip_hash_app, (split_snoc "&" _ kv Hkv), map_app, forEach_pairs_app.
  cbn [map forEach_pairs].
  destruct (forEach_pairs _ ∅) as [e|h]; [reflexivity|].
  destruct (parse_pair (Js.split "=" kv) h); reflexivity.
Qed.

(** A pair [k=v] added at the end of a fragment that parses: when the
    value decodes, the result is the earlier result with [k] set to
    the decoded value, so a later pair replaces an earlier one with
    the same key and touches no other key; when the value does not
    decode, the whole fragment throws, whatever the pairs before it
    were. *)
Theorem parseHash_last_pair_wins (frag k v : string)
  (h : gmap string string) :
  parseHash frag = inr h ->
  Js.is_empty k = false ->
  k <> "__proto__" ->
  no_char "&" k = true -> no_char "=" k = true ->
  no_char "&" v = true -> no_char "=" v = true ->
  match Js.decodeURIComponent (Some v) with
  | inr d =>
      parseHash (frag +:+ String "&" (k +:+ String "=" v))
      = inr (<[ k := d ]> h)
  | inl e => parseHash (frag +:+ String "&" (k +:+ String "=" v)) = inl e
  end.
Proof.
  intros Hp Hk Hproto Hka Hke Hva Hve.
  rewrite parseHash_snoc.
  2:{ rewrite no_char_app. cbn [no_char]. rewrite Hka, Hva. reflexivity. }
  rewrite Hp, (split_app "=" k v Hke), (split_no_char "=" v Hve).
  unfold parse_pair, assign. cbn [hd nth_error]. rewrite Hk.
  destruct (Js.decodeURIComponent (Some v)) as [e|d]; [reflexivity|].
  destruct (String.eqb_spec k "__proto__"); [contradiction | reflexivity].
Qed.

Lemma parseHash_last_pair_wins_witness :
  parseHash ("#book=1&chapter=2" +:+ String "&" ("book" +:+ String "=" "7"))
  = inr (<[ "book" := "7" ]> (<[ "chapter" := "2" ]> {[ "book" := "1" ]})).
Proof.
  apply (parseHash_last_pair_wins "#book=1&chapter=2" "book" "7"
           (<[ "chapter" := "2" ]> {[ "book" := "1" ]}));
    (reflexivity || discriminate).
Defined.

(** ** The verses page *)

Lemma verses_have_chapter_openChapter (b n : Js.num) (st : State) :
  verses_have_chapter st -> verses_have_chapter (openChapter b n st).
Proof.
  intros H. unfold openChapter.
  destruct (bookCache st !! Js.toString b) as [[book|name complaint]|];
    [|intros _; discriminate|exact H].
  destruct (find_chapter n book); intros _; discriminate.
Qed.

Lemma verses_have_chapter_caught (b n : Js.num) (st : State) :
  verses_have_chapter st -> verses_have_chapter (openChapter_caught b n st).
Proof.
  intros H. unfold openChapter_caught.
  destruct (openChapter_thrown b st);
    [intros E; discriminate E | apply verses_have_chapter_openChapter, H].
Qed.

Lemma verses_have_chapter_show (book : Book) (o : Options) (st : State) :
  verses_have_chapter (openBook_show book o st).
Proof.
  assert (H : verses_have_chapter (renderChaptersView book st))
    by (intros E; discriminate E).
  unfold openBook_show.
  destruct (Js.truthy (opt_chapter o)); [|destruct (opt_showChaptersOnly o)];
    try apply verses_have_chapter_caught; exact H.
Qed.

(** Every handler keeps this: whenever the page shows verses (or the
    notice that stands for them), [currentChapter] is set, so the back
    button then leads to the chapter list and not to the library. *)
Theorem verses_page_has_chapter (st : State) :
  verses_have_chapter st ->
  (forall b n : Js.num, verses_have_chapter (openChapter b n st))
  /\ (forall (v : Js.value) (o : Options),
        verses_have_chapter (state_of (openBook v o st)))
  /\ (forall (k : Pending) (r : response),
        verses_have_chapter (openBook_resume k r st))
  /\ verses_have_chapter (state_of (backBtn_click st))
  /\ verses_have_chapter (showBooks st)
  /\ (forall (toLowerCase : string -> string) (input : string),
        verses_have_chapter (searchInput_input toLowerCase input st)).
Proof.
  intros H.
  assert (Ho : forall (v : Js.value) (o : Options),
             verses_have_chapter (state_of (openBook v o st))).
  { intros v o. unfold openBook. fields.
    destruct (bookCache st !! Js.toString (Js.Number v))
      as [[book|name complaint]|].
    - cbn [state_of]. apply verses_have_chapter_show.
    - cbn [state_of]. intros E. discriminate E.
    - destruct (find_meta (Js.Number v) (booksIndex st)); cbn [state_of].
      + exact H.
      + intros E. discriminate E. }
  split; [intros b n; apply verses_have_chapter_openChapter, H|].
  split; [exact Ho|]. split; [|split; [|split]].
  - intros k [message|book|name complaint]; cbn [openBook_resume].
    + intros E. discriminate E.
    + apply verses_have_chapter_show.
    + intros E. discriminate E.
  - unfold backBtn_click. destruct (currentChapter st).
    + apply Ho.
    + intros E. discriminate E.
  - intros E. discriminate E.
  - intros toLowerCase input. unfold searchInput_input.
    destruct (negb _ && existsb _ _); exact H.
Qed.

Lemma verses_page_has_chapter_witness :
  verses_have_chapter (state_of (backBtn_click genesis_open)).
Proof.
  destruct (verses_page_has_chapter genesis_open) as (_ & _ & _ & H & _).
  - intros _. discriminate.
  - exact H.
Defined.
